(** * name-that-sub: the daily puzzle builder and the per-user game state

    A shallow embedding of [src/server/routes/game.ts] (both listings of
    the file) and of the [DailyPuzzle] type of [src/shared/api.ts].

    Conventions of the embedding:
    - a JavaScript string is a [string]; each character stands for one
      UTF-16 code unit, so the model covers code units below 256;
    - a JavaScript number that the code keeps integral (hashes, counts,
      scores, milliseconds) is a [Z]; [NaN] is [None] in [option Z];
    - the key-value store is a [gmap string string]; [expire] only bounds
      the retention of a key (48 hours) and holds no value, so it is the
      identity here: every statement speaks about the store while its keys
      are retained;
    - the content source is a record of functions, a rejected call is
      [None]. *)

From Stdlib Require Import ZArith String Ascii List Bool Lia Sorted.
From Stdlib Require Import DecimalString DecimalZ DecimalPos.
From stdpp Require Import gmap strings list.

Local Open Scope string_scope.
Local Open Scope Z_scope.

(** ** JavaScript primitives used by the program *)
Module Js.

(** [ToInt32] and [ToUint32] of an integral number. *)
Definition toInt32 (z : Z) : Z := (z + 2147483648) mod 4294967296 - 2147483648.
Definition toUint32 (z : Z) : Z := z mod 4294967296.

(** [a ^ b], [a << n], [a >> n] and [Math.imul(a, b)] *)
Definition xor32 (a b : Z) : Z := Z.lxor (toInt32 a) (toInt32 b).
Definition shl32 (a n : Z) : Z := toInt32 (Z.shiftl (toInt32 a) n).
Definition sar32 (a n : Z) : Z := Z.shiftr (toInt32 a) n.
Definition imul (a b : Z) : Z := toInt32 (toInt32 a * toInt32 b).

(** [s.charCodeAt(i)] for every [i], in order. *)
Definition charCode (c : ascii) : Z := Z.of_N (N_of_ascii c).

Fixpoint charCodes (s : string) : list Z :=
  match s with
  | EmptyString => []
  | String c r => charCode c :: charCodes r
  end.

Definition strlen (s : string) : Z := Z.of_nat (String.length s).

(** White space of [String.prototype.trim] among the code units below 256:
    TAB, LF, VT, FF, CR, SP and NBSP. *)
Definition isSpace (c : ascii) : bool :=
  let n := charCode c in
  ((9 <=? n) && (n <=? 13)) || (n =? 32) || (n =? 160).

Fixpoint trimStart (s : string) : string :=
  match s with
  | EmptyString => EmptyString
  | String c r => if isSpace c then trimStart r else s
  end.

Fixpoint trimEnd (s : string) : string :=
  match s with
  | EmptyString => EmptyString
  | String c r =>
      match trimEnd r with
      | EmptyString => if isSpace c then EmptyString else String c EmptyString
      | r' => String c r'
      end
  end.

Definition trim (s : string) : string := trimEnd (trimStart s).

(** [toLowerCase] on one code unit: A-Z, and the Latin-1 capitals
    U+00C0..U+00DE without the multiplication sign U+00D7. *)
Definition lowerChar (c : ascii) : ascii :=
  let n := charCode c in
  if ((65 <=? n) && (n <=? 90)) || ((192 <=? n) && (n <=? 222) && negb (n =? 215))
  then ascii_of_N (Z.to_N (n + 32)) else c.

Fixpoint toLowerCase (s : string) : string :=
  match s with
  | EmptyString => EmptyString
  | String c r => String (lowerChar c) (toLowerCase r)
  end.

Fixpoint startsWith (p s : string) : bool :=
  match p, s with
  | EmptyString, _ => true
  | String a p', String b s' => if Ascii.eqb a b then startsWith p' s' else false
  | String _ _, EmptyString => false
  end.

(** [hay.includes(needle)] *)
Fixpoint includes (needle hay : string) : bool :=
  startsWith needle hay ||
  match hay with
  | EmptyString => false
  | String _ r => includes needle r
  end.

(** [s.replace(/re/g, "")] for a character class: keep what is outside. *)
Fixpoint keepChars (keep : ascii -> bool) (s : string) : string :=
  match s with
  | EmptyString => EmptyString
  | String c r => if keep c then String c (keepChars keep r) else keepChars keep r
  end.

Definition isDigit (c : ascii) : bool :=
  let n := charCode c in (48 <=? n) && (n <=? 57).

Fixpoint allChars (p : ascii -> bool) (s : string) : bool :=
  match s with
  | EmptyString => true
  | String c r => p c && allChars p r
  end.

(** [String(n)] for an integral number in the range where JavaScript
    prints every digit (below 1e21). *)
Definition showZ (z : Z) : string := NilZero.string_of_int (Z.to_int z).

(** [String(x)] for a number that may be NaN. *)
Definition showNum (x : option Z) : string :=
  match x with Some z => showZ z | None => "NaN" end.

(** [s.padStart(2, "0")] *)
Definition pad2 (s : string) : string :=
  match s with
  | EmptyString => "00"
  | String c EmptyString => String "0" s
  | _ => s
  end.

(** [Number(s)] for a stored text: the empty text is 0, a decimal
    numeral (as [String] prints an integer) is its value, anything else
    is NaN. The program only reads back what it stored with [String(n)];
    the other numerals JavaScript accepts (hexadecimal, exponents,
    fractions, padding white space) are NaN here. *)
Definition toNumber (s : string) : option Z :=
  match s with
  | EmptyString => Some 0
  | String "-" r =>
      if allChars isDigit r && negb (String.eqb r "")
      then Z.of_int <$> NilZero.int_of_string s else None
  | _ =>
      if allChars isDigit s then Z.of_int <$> NilZero.int_of_string s else None
  end.

(** [a + b] on numbers, NaN absorbing. *)
Definition add (a : option Z) (b : Z) : option Z := (fun z => z + b) <$> a.

(** The values a JSON body or a metadata object can hold in a field. *)
Inductive Val :=
| Undefined
| Null
| Bool (b : bool)
| Num (z : Z)
| NaN
| Str (s : string).

(** [v ?? d] *)
Definition nullish (v d : Val) : Val :=
  match v with Undefined | Null => d | _ => v end.

(** [String(v)] *)
Definition toString (v : Val) : string :=
  match v with
  | Undefined => "undefined"
  | Null => "null"
  | Bool true => "true"
  | Bool false => "false"
  | Num z => showZ z
  | NaN => "NaN"
  | Str s => s
  end.

(** The UTC calendar date of a time value (milliseconds since the epoch):
    [getUTCFullYear], [getUTCMonth() + 1] and [getUTCDate]. *)
Definition msPerDay : Z := 86400000.

Definition civilFromDays (days : Z) : Z * Z * Z :=
  let z := days + 719468 in
  let era := z / 146097 in
  let doe := z - era * 146097 in
  let yoe := (doe - doe / 1460 + doe / 36524 - doe / 146096) / 365 in
  let doy := doe - (365 * yoe + yoe / 4 - yoe / 100) in
  let mp := (5 * doy + 2) / 153 in
  let d := doy - (153 * mp + 2) / 5 + 1 in
  let m := if mp <? 10 then mp + 3 else mp - 9 in
  let y := yoe + era * 400 + (if m <=? 2 then 1 else 0) in
  (y, m, d).

Definition utcDate (ms : Z) : Z * Z * Z := civilFromDays (ms / msPerDay).

End Js.

Import Js.

(** ** Data model ([src/shared/api.ts] and the shapes the routes read) *)

Inductive GameMode := easy | medium | hard.

Definition modeName (m : GameMode) : string :=
  match m with easy => "easy" | medium => "medium" | hard => "hard" end.

Record DailyPuzzle := {
  dateKey : string;
  mode : GameMode;
  subreddit : string;
  postId : string;
  postTitle : string;
  postBody : string;
  commentId : string;
  commentBody : string;
}.

(** A post of a listing; an absent (or null) field is [None].
    [p_subredditObjName] is [post.subreddit.name] when [post.subreddit]
    is an object, [p_subreddit] is [post.subreddit] when it is a text. *)
Record Post := {
  p_subredditName : option string;
  p_subredditObjName : option string;
  p_subreddit : option string;
  p_id : string;
  p_title : option string;
  p_selftext : option string;
  p_body : option string;
}.

Record Comment := {
  c_id : string;
  c_body : option string;
}.

(** Community metadata, with the field names the code probes. *)
Record SubInfo := {
  i_subscribers : Val;
  i_subscriberCount : Val;
  i_subscriber_count : Val;
  i_subscribersCount : Val;
  i_communitySize : Val;
  i_nsfw : Val;
  i_isNsfw : Val;
  i_over18 : Val;
  i_isOver18 : Val;
  i_over_18 : Val;
}.

(** The content source ([reddit]) at one moment: a snapshot. [None] is a
    rejected call. The listings take the community and the [limit]. *)
Record Reddit := {
  getNewPosts : string -> Z -> option (list Post);
  getHotPosts : string -> Z -> option (list Post);
  getComments : string -> Z -> option (list Comment);
  getSubredditInfoByName : string -> option SubInfo;
  getCurrentUser : option string;
}.

(** What a route can throw. *)
Inductive Error :=
| NoPostsFound (sub : string)
| NoUsableComments (post : string)
| Rejected
| TypeError
| SyntaxError.

Inductive result (A : Type) :=
| Ok (a : A)
| Throw (e : Error).
Arguments Ok {A} a.
Arguments Throw {A} e.

(** ** Helpers shared by both listings of [game.ts] *)

Definition dateText (ymd : Z * Z * Z) : string :=
  let '(y, m, d) := ymd in
  showZ y ++ "-" ++ pad2 (showZ m) ++ "-" ++ pad2 (showZ d).

(** [utcDateKey(new Date(ms))] *)
Definition utcDateKey (ms : Z) : string := dateText (utcDate ms).

Definition isWordChar (c : ascii) : bool :=
  let n := charCode c in
  ((65 <=? n) && (n <=? 90)) || ((97 <=? n) && (n <=? 122)) ||
  ((48 <=? n) && (n <=? 57)) || (n =? 95).

(** [s.replace(/^\/?r\//i, "")] *)
Definition stripCommunityPrefix (s : string) : string :=
  match s with
  | String "/" (String "r" (String "/" r)) => r
  | String "/" (String "R" (String "/" r)) => r
  | String "r" (String "/" r) => r
  | String "R" (String "/" r) => r
  | _ => s
  end.

Definition normalizeGuess (input : string) : string :=
  let s := stripCommunityPrefix (trim input) in
  keepChars isWordChar s.

Definition normalizeMode (raw : Val) : GameMode :=
  let s := toLowerCase (toString (nullish raw (Str ""))) in
  if String.eqb s "easy" then easy
  else if String.eqb s "medium" then medium
  else if String.eqb s "hard" then hard
  else medium.

Definition seedFromString (str : string) : Z :=
  let h := fold_left (fun h c => imul (xor32 h c) 16777619) (charCodes str) 2166136261 in
  toUint32 h.

Definition xorshift (x : Z) : Z :=
  let x := xor32 x (shl32 x 13) in
  let x := xor32 x (sar32 x 17) in
  xor32 x (shl32 x 5).

(** [len] is never 0 at a call of the program (JavaScript would give NaN). *)
Definition pickIndex (len seed : Z) : Z :=
  let x := if seed =? 0 then 123456789 else seed in
  Z.abs (xorshift x) mod len.

Definition minSubsForMode (m : GameMode) : Z :=
  match m with easy => 1000000 | medium => 10000 | hard => 0 end.

Definition isFiniteNumber (v : Val) : option Z :=
  match v with Num z => Some z | _ => None end.

Fixpoint firstFinite (vs : list Val) : Z :=
  match vs with
  | [] => 0
  | v :: vs' => match isFiniteNumber v with Some z => z | None => firstFinite vs' end
  end.

Definition getSubscriberCount (info : SubInfo) : Z :=
  firstFinite [i_subscribers info; i_subscriberCount info; i_subscriber_count info;
               i_subscribersCount info; i_communitySize info].

Definition isTrue (v : Val) : bool :=
  match v with Bool true => true | _ => false end.

Definition isNsfwSub (info : SubInfo) : bool :=
  existsb isTrue [i_nsfw info; i_isNsfw info; i_over18 info; i_isOver18 info; i_over_18 info].

Definition getPostSubredditName (p : Post) : option string :=
  match p_subredditName p with
  | Some s => Some s
  | None =>
      match p_subredditObjName p with
      | Some s => Some s
      | None => p_subreddit p
      end
  end.

(** [!!s] on a name that may be null *)
Definition truthyName (o : option string) : option string :=
  match o with
  | Some EmptyString => None
  | other => other
  end.

(** Element [i] of an array; reading a field of the [undefined] found past
    the end throws. *)
Definition at_ {A} (l : list A) (i : Z) : result A :=
  match l !! Z.to_nat i with
  | Some a => Ok a
  | None => Throw TypeError
  end.

(** *** Keys of the store *)

Definition kScore (userId : string) (m : GameMode) : string :=
  "nts:user:" ++ userId ++ ":" ++ modeName m ++ ":score".
Definition kStreak (userId : string) (m : GameMode) : string :=
  "nts:user:" ++ userId ++ ":" ++ modeName m ++ ":streak".
Definition kLastDate (userId : string) (m : GameMode) : string :=
  "nts:user:" ++ userId ++ ":" ++ modeName m ++ ":lastDate".
Definition kPlayed (userId : string) (m : GameMode) (dk : string) : string :=
  "nts:user:" ++ userId ++ ":" ++ modeName m ++ ":played:" ++ dk.
Definition kCommit (userId : string) (m : GameMode) (dk : string) : string :=
  "nts:user:" ++ userId ++ ":" ++ modeName m ++ ":commit:" ++ dk.
Definition kCompleted (userId : string) (m : GameMode) (dk : string) : string :=
  "nts:user:" ++ userId ++ ":" ++ modeName m ++ ":completed:" ++ dk.
Definition kPuzzle (dk : string) (m : GameMode) : string :=
  "nts:puzzle:" ++ dk ++ ":" ++ modeName m.

(** The keys of one player and mode share all but their endings. *)
Definition userKey (userId : string) (m : GameMode) (ending : string) : string :=
  "nts:user:" ++ userId ++ ":" ++ modeName m ++ ending.

(** ** [JSON.stringify] and [JSON.parse] on a [DailyPuzzle]

    The cache entry of a puzzle is the JSON text of the record. The printer
    follows [JSON.stringify] (member order of the object literal, the
    escapes of a JSON string). The reader accepts the texts of that shape,
    with any of the escapes JSON allows; on every other text it reports a
    syntax error (the store holds under a puzzle key only what
    [buildDailyPuzzle] wrote). *)
Module Json.

Definition dq : ascii := ascii_of_N 34.
Definition bs : ascii := ascii_of_N 92.

Definition hexDigit (n : Z) : ascii :=
  if n <? 10 then ascii_of_N (Z.to_N (48 + n)) else ascii_of_N (Z.to_N (87 + n)).

Definition hexValue (c : ascii) : option Z :=
  let n := charCode c in
  if (48 <=? n) && (n <=? 57) then Some (n - 48)
  else if (97 <=? n) && (n <=? 102) then Some (n - 87)
  else if (65 <=? n) && (n <=? 70) then Some (n - 55)
  else None.

Definition esc2 (c : ascii) : string := String bs (String c EmptyString).

Definition escapeChar (c : ascii) : string :=
  let n := charCode c in
  if n =? 34 then esc2 dq
  else if n =? 92 then esc2 bs
  else if n =? 8 then esc2 "b"
  else if n =? 12 then esc2 "f"
  else if n =? 10 then esc2 "n"
  else if n =? 13 then esc2 "r"
  else if n =? 9 then esc2 "t"
  else if n <? 32 then
    String bs (String "u" (String "0" (String "0"
      (String (hexDigit (n / 16)) (String (hexDigit (n mod 16)) EmptyString)))))
  else String c EmptyString.

Fixpoint escape (s : string) : string :=
  match s with
  | EmptyString => EmptyString
  | String c r => escapeChar c ++ escape r
  end.

Definition quote (s : string) : string := String dq (escape s ++ String dq EmptyString).

Definition consTo (c : ascii) (x : option (string * string)) : option (string * string) :=
  match x with
  | Some (u, rest) => Some (String c u, rest)
  | None => None
  end.

(** Reads the characters of a JSON string after its opening quote, up to
    and including the closing quote; gives the text and what follows. *)
Fixpoint unescape (s : string) : option (string * string) :=
  match s with
  | EmptyString => None
  | String c r =>
      let n := charCode c in
      if n =? 34 then Some (EmptyString, r)
      else if n =? 92 then
        match r with
        | EmptyString => None
        | String e r1 =>
            let k := charCode e in
            if (k =? 34) || (k =? 92) || (k =? 47) then consTo e (unescape r1)
            else if k =? 98 then consTo (ascii_of_N 8) (unescape r1)
            else if k =? 102 then consTo (ascii_of_N 12) (unescape r1)
            else if k =? 110 then consTo (ascii_of_N 10) (unescape r1)
            else if k =? 114 then consTo (ascii_of_N 13) (unescape r1)
            else if k =? 116 then consTo (ascii_of_N 9) (unescape r1)
            else if k =? 117 then
              match r1 with
              | String h3 (String h2 (String h1 (String h0 r2))) =>
                  match hexValue h3, hexValue h2, hexValue h1, hexValue h0 with
                  | Some 0, Some 0, Some a, Some b =>
                      consTo (ascii_of_N (Z.to_N (16 * a + b))) (unescape r2)
                  | _, _, _, _ => None
                  end
              | _ => None
              end
            else None
        end
      else if n <? 32 then None
      else consTo c (unescape r)
  end.

(** Reads [lit] at the head of [s]. *)
Fixpoint expect (lit s : string) : option string :=
  match lit, s with
  | EmptyString, _ => Some s
  | String a l', String b s' => if Ascii.eqb a b then expect l' s' else None
  | String _ _, EmptyString => None
  end.

(** Reads the member ["name":"text"] preceded by [sep]. *)
Definition member (sep name s : string) : option (string * string) :=
  match expect (sep ++ quote name ++ String ":" (String dq EmptyString)) s with
  | Some r => unescape r
  | None => None
  end.

Definition modeOfName (s : string) : option GameMode :=
  if String.eqb s "easy" then Some easy
  else if String.eqb s "medium" then Some medium
  else if String.eqb s "hard" then Some hard
  else None.

Definition stringify (p : DailyPuzzle) : string :=
  "{" ++ quote "dateKey" ++ ":" ++ quote (dateKey p) ++
  "," ++ quote "mode" ++ ":" ++ quote (modeName (mode p)) ++
  "," ++ quote "subreddit" ++ ":" ++ quote (subreddit p) ++
  "," ++ quote "postId" ++ ":" ++ quote (postId p) ++
  "," ++ quote "postTitle" ++ ":" ++ quote (postTitle p) ++
  "," ++ quote "postBody" ++ ":" ++ quote (postBody p) ++
  "," ++ quote "commentId" ++ ":" ++ quote (commentId p) ++
  "," ++ quote "commentBody" ++ ":" ++ quote (commentBody p) ++ "}".

Definition parse (s : string) : result DailyPuzzle :=
  let r :=
    '(dk, s) ← member "{" "dateKey" s;
    '(mn, s) ← member "," "mode" s;
    m ← modeOfName mn;
    '(sub, s) ← member "," "subreddit" s;
    '(pid, s) ← member "," "postId" s;
    '(pt, s) ← member "," "postTitle" s;
    '(pb, s) ← member "," "postBody" s;
    '(cid, s) ← member "," "commentId" s;
    '(cb, s) ← member "," "commentBody" s;
    if String.eqb s "}" then
      Some {| dateKey := dk; mode := m; subreddit := sub; postId := pid;
              postTitle := pt; postBody := pb; commentId := cid; commentBody := cb |}
    else None in
  match r with
  | Some p => Ok p
  | None => Throw SyntaxError
  end.

End Json.

(** ** The store and the effects of a route

    A route reads and writes the store and may throw; what it wrote before
    it threw stays written. *)

Definition M (A : Type) : Type :=
  gmap string string -> gmap string string * result A.

#[global] Instance result_ret : MRet result := @Ok.
#[global] Instance result_bind : MBind result :=
  fun A B f x => match x with Ok a => f a | Throw e => Throw e end.

#[global] Instance M_ret : MRet M := fun A a r => (r, Ok a).
#[global] Instance M_bind : MBind M :=
  fun A B f m r =>
    match m r with
    | (r', Ok a) => f a r'
    | (r', Throw e) => (r', Throw e)
    end.

Definition bindM {A B} (m : M A) (f : A -> M B) : M B := mbind f m.

Notation "'let!' x := m 'in' k" := (bindM m (fun x => k))
  (at level 10, x binder, k at level 200).
Notation "m >> k" := (bindM m (fun _ => k))
  (at level 100, k at level 200, right associativity).

Definition throw {A} (e : Error) : M A := fun r => (r, Throw e).
Definition lift {A} (x : result A) : M A := fun r => (r, x).

Definition skip : M unit := mret tt.

Definition redis_get (k : string) : M (option string) := fun r => (r, Ok (r !! k)).
Definition redis_set (k v : string) : M unit := fun r => (<[k:=v]> r, Ok tt).
Definition redis_expire (k : string) (seconds : Z) : M unit := fun r => (r, Ok tt).

(** [(await redis.get(k)) === "1"] *)
Definition isOne (v : option string) : bool :=
  match v with Some s => String.eqb s "1" | None => false end.

(** [Number((await redis.get(k)) ?? 0)] *)
Definition numberOr0 (v : option string) : option Z :=
  match v with Some s => toNumber s | None => Some 0 end.

Definition readCommitted (userId : string) (m : GameMode) (dk : string) : M bool :=
  let! v := redis_get (kCommit userId m dk) in mret (isOne v).

Definition commitMode (userId : string) (m : GameMode) (dk : string) : M unit :=
  let key := kCommit userId m dk in
  redis_set key "1" >> redis_expire key (60 * 60 * 48).

Definition readCompleted (userId : string) (m : GameMode) (dk : string) : M bool :=
  let! v := redis_get (kCompleted userId m dk) in mret (isOne v).

Definition setCompleted (userId : string) (m : GameMode) (dk : string) : M unit :=
  let key := kCompleted userId m dk in
  redis_set key "1" >> redis_expire key (60 * 60 * 48).

(** ** Listing posts, and the comment pools of [buildDailyPuzzle] *)

(** [try { getNewPosts } catch { getHotPosts }] *)
Definition listPosts (W : Reddit) (sub : string) (limit : Z) : result (list Post) :=
  match getNewPosts W sub limit with
  | Some ps => Ok ps
  | None =>
      match getHotPosts W sub limit with
      | Some ps => Ok ps
      | None => Throw Rejected
      end
  end.

Definition len {A} (l : list A) : Z := Z.of_nat (length l).

(** [{ id: c.id, body: (c.body ?? "").toString().trim() }] *)
Definition commentView (c : Comment) : string * string :=
  (c_id c, trim (default EmptyString (c_body c))).

Definition isDeletedOrRemoved (body : string) : bool :=
  String.eqb body "[deleted]" || String.eqb body "[removed]".

(** The filter of [usable]. *)
Definition strictOk (subreddit : string) (c : string * string) : bool :=
  let body := c.2 in
  if String.eqb body EmptyString then false
  else if isDeletedOrRemoved body then false
  else if strlen body <? 25 then false
  else
    let lower := toLowerCase body in
    if includes ("r/" ++ toLowerCase subreddit) lower then false
    else if includes "this sub" lower || includes "this subreddit" lower then false
    else if includes "i am a bot" lower || includes "automod" lower then false
    else true.

(** The filter of the fallback pool. *)
Definition looseOk (c : string * string) : bool :=
  let body := c.2 in
  negb (String.eqb body EmptyString) &&
  negb (String.eqb body "[deleted]") && negb (String.eqb body "[removed]").

Definition usablePool (subreddit : string) (comments : list Comment) : list (string * string) :=
  List.filter (strictOk subreddit) (map commentView comments).

Definition loosePool (comments : list Comment) : list (string * string) :=
  List.filter looseOk (map commentView comments).

Definition commentPool (subreddit : string) (comments : list Comment) : list (string * string) :=
  match usablePool subreddit comments with
  | [] => take 60 (loosePool comments)
  | usable => take 60 usable
  end.

Section Build.

(** [pickSubredditForMode] differs between the two listings; the text of
    [buildDailyPuzzle] is the same in both. *)
Variable pickSubredditForMode : Reddit -> string -> GameMode -> result string.

Definition buildDailyPuzzleWith (W : Reddit) (dk : string) (m : GameMode) : M DailyPuzzle :=
  let cacheKey := kPuzzle dk m in
  let! cached := redis_get cacheKey in
  match cached with
  | Some (String _ _ as text) => lift (Json.parse text)
  | _ =>
      let! subreddit := lift (pickSubredditForMode W dk m) in
      let! posts := lift (listPosts W subreddit 50) in
      if len posts =? 0 then throw (NoPostsFound subreddit) else
      let! post := lift (at_ posts (pickIndex (len posts)
               (seedFromString (dk ++ ":" ++ modeName m ++ ":" ++ subreddit ++ ":post")))) in
      let postId := p_id post in
      let postTitle := default EmptyString (p_title post) in
      let postBody :=
        match p_selftext post with
        | Some s => s
        | None => default EmptyString (p_body post)
        end in
      let! comments := lift (match getComments W postId 200 with
                       | Some cs => Ok cs
                       | None => Throw Rejected
                       end) in
      let pool := commentPool subreddit comments in
      if len pool =? 0 then throw (NoUsableComments postId) else
      let! comment := lift (at_ pool (pickIndex (len pool)
                  (seedFromString (dk ++ ":" ++ modeName m ++ ":" ++ subreddit ++ ":comment")))) in
      let puzzle :=
        {| dateKey := dk; mode := m; subreddit := subreddit; postId := postId;
           postTitle := postTitle; postBody := postBody;
           commentId := comment.1; commentBody := comment.2 |} in
      redis_set cacheKey (Json.stringify puzzle) >>
      redis_expire cacheKey (60 * 60 * 48) >>
      mret puzzle
  end.

(** What a cache miss computes from the content source. *)
Definition freshPuzzle (W : Reddit) (dk : string) (m : GameMode) : result DailyPuzzle :=
  match pickSubredditForMode W dk m with
  | Throw e => Throw e
  | Ok sub =>
      match listPosts W sub 50 with
      | Throw e => Throw e
      | Ok posts =>
          if len posts =? 0 then Throw (NoPostsFound sub) else
          match at_ posts (pickIndex (len posts)
                   (seedFromString (dk ++ ":" ++ modeName m ++ ":" ++ sub ++ ":post"))) with
          | Throw e => Throw e
          | Ok post =>
              match getComments W (p_id post) 200 with
              | None => Throw Rejected
              | Some comments =>
                  let pool := commentPool sub comments in
                  if len pool =? 0 then Throw (NoUsableComments (p_id post)) else
                  match at_ pool (pickIndex (len pool)
                          (seedFromString (dk ++ ":" ++ modeName m ++ ":" ++ sub ++ ":comment"))) with
                  | Throw e => Throw e
                  | Ok comment =>
                      Ok {| dateKey := dk; mode := m; subreddit := sub;
                            postId := p_id post;
                            postTitle := default EmptyString (p_title post);
                            postBody := match p_selftext post with
                                        | Some s => s
                                        | None => default EmptyString (p_body post)
                                        end;
                            commentId := comment.1; commentBody := comment.2 |}
                  end
              end
          end
      end
  end.

(** The cache entry as the code reads it: an absent or empty text is a
    miss. *)
Definition cachedText (r : gmap string string) (dk : string) (m : GameMode) : option string :=
  match r !! kPuzzle dk m with
  | Some (String c t) => Some (String c t)
  | _ => None
  end.

End Build.

(** ** Requests *)

(** The JSON body of a POST, or the query of a GET: an absent field is
    [Undefined]. *)
Record Body := {
  b_subredditGuess : Val;
  b_stageUsed : Val;
  b_mode : Val;
  b_dateKey : Val;
}.

(** [await c.req.json().catch(() => ({}))]: a missing or unparseable body
    ([None]) is the empty object. *)
Definition bodyOrEmpty (raw : option Body) : Body :=
  default {| b_subredditGuess := Undefined; b_stageUsed := Undefined;
             b_mode := Undefined; b_dateKey := Undefined |} raw.

(** [v === k] for a number literal [k] *)
Definition isNum (v : Val) (k : Z) : bool :=
  match v with Num z => z =? k | _ => false end.

(** [stageUsed === 1 ? 100 : stageUsed === 2 ? 60 : 30] *)
Definition stagePoints (stageUsed : Val) : Z :=
  if isNum stageUsed 1 then 100 else if isNum stageUsed 2 then 60 else 30.

(** [/^\d{4}-\d{2}-\d{2}$/.test(s)] *)
Definition isDateShape (s : string) : bool :=
  match s with
  | String y1 (String y2 (String y3 (String y4 (String h1
      (String m1 (String m2 (String h2 (String d1 (String d2 EmptyString))))))))) =>
      isDigit y1 && isDigit y2 && isDigit y3 && isDigit y4 && Ascii.eqb h1 "-" &&
      isDigit m1 && isDigit m2 && Ascii.eqb h2 "-" && isDigit d1 && isDigit d2
  | _ => false
  end.

(** The first listing of [src/server/routes/game.ts]: day keys sent by the
    client, a [completed] flag, the give-up route. *)
Module Rich.

Definition utcDateKeyOffset (now daysOffset : Z) : string :=
  utcDateKey (now + daysOffset * 24 * 60 * 60 * 1000).

Definition normalizeClientDateKey (now : Z) (raw : Val) : string :=
  let s := trim (toString (nullish raw (Str EmptyString))) in
  if isDateShape s then s else utcDateKey now.

Definition resolveDateKey (now : Z) (queryOrBodyDateKey : Val) : string :=
  let dk := normalizeClientDateKey now queryOrBodyDateKey in
  let allowed : gset string :=
    list_to_set [utcDateKeyOffset now (-1); utcDateKeyOffset now 0; utcDateKeyOffset now 1] in
  if decide (dk ∈ allowed) then dk else utcDateKey now.

(** The body of the [for] loop of [pickSubredditForMode], for the values
    [ixs] of [i] still to come. [Ok None]: the loop ended without a
    [return]. *)
Fixpoint scanCandidates (W : Reddit) (minSubs : Z) (candidates : list (Post * string))
    (baseSeed : Z) (ixs : list nat) (tried : gset string) : result (option string) :=
  match ixs with
  | [] => Ok None
  | i :: rest =>
      let idx := pickIndex (len candidates)
                   (seedFromString (showZ baseSeed ++ ":" ++ showZ (Z.of_nat i))) in
      c ← at_ candidates idx;
      let sub := c.2 in
      if decide (sub ∈ tried) then scanCandidates W minSubs candidates baseSeed rest tried
      else
        let tried := {[ sub ]} ∪ tried in
        match getSubredditInfoByName W sub with
        | None => scanCandidates W minSubs candidates baseSeed rest tried
        | Some info =>
            if isNsfwSub info then scanCandidates W minSubs candidates baseSeed rest tried
            else
              let subs := getSubscriberCount info in
              (* lenient if subscriber count unknown *)
              if (subs =? 0) || (minSubs <=? subs) then Ok (Some sub)
              else scanCandidates W minSubs candidates baseSeed rest tried
        end
  end.

(** [posts.map((p) => ({ post: p, sub: getPostSubredditName(p) })).filter((x) => !!x.sub)] *)
Definition candidatesOf (posts : list Post) : list (Post * string) :=
  omap (fun p => match truthyName (getPostSubredditName p) with
                 | Some sub => Some (p, sub)
                 | None => None
                 end) posts.

Definition pickSubredditForMode (W : Reddit) (dk : string) (m : GameMode) : result string :=
  let minSubs := minSubsForMode m in
  posts ← listPosts W "all" 120;
  let candidates := candidatesOf posts in
  if len candidates =? 0 then Ok "all" else
  let baseSeed := seedFromString (dk ++ ":" ++ modeName m ++ ":subpick") in
  found ← scanCandidates W minSubs candidates baseSeed
            (seq 0 (Z.to_nat (Z.min 45 (len candidates)))) ∅;
  match found with
  | Some sub => Ok sub
  | None => c ← at_ candidates (pickIndex (len candidates) baseSeed); Ok c.2
  end.

Definition buildDailyPuzzle : Reddit -> string -> GameMode -> M DailyPuzzle :=
  buildDailyPuzzleWith pickSubredditForMode.

Record GetStateResponse := {
  gs_puzzle : DailyPuzzle;
  gs_modeLocked : GameMode;
  gs_modeIsLocked : bool;
  gs_completedToday : bool;
  gs_totalScore : option Z;
  gs_streak : option Z;
  gs_lastPlayedDateKey : option string;
}.

Record LockModeResponse := {
  lk_modeLocked : GameMode;
  lk_modeIsLocked : bool;
  lk_completedToday : bool;
}.

Record GiveUpResponse := {
  gu_modeLocked : GameMode;
  gu_modeIsLocked : bool;
  gu_completedToday : bool;
  gu_answer : string;
}.

Record GuessResponse := {
  correct : bool;
  stageUsed : Val;
  pointsAwarded : Z;
  answer : string;
  totalScore : option Z;
  streak : option Z;
  modeLocked : GameMode;
  modeIsLocked : bool;
  completedToday : bool;
}.

Definition userIdOf (W : Reddit) : string := default "anon" (getCurrentUser W).

(** GET /api/game/state?mode=...&dateKey=... *)
Definition getState (W : Reddit) (now : Z) (q : Body) : M GetStateResponse :=
  let requestedMode := normalizeMode (b_mode q) in
  let dk := resolveDateKey now (b_dateKey q) in
  let userId := userIdOf W in
  let! modeIsLocked := readCommitted userId requestedMode dk in
  let! completedToday := readCompleted userId requestedMode dk in
  let! puzzle := buildDailyPuzzle W dk requestedMode in
  let! score := redis_get (kScore userId requestedMode) in
  let! strk := redis_get (kStreak userId requestedMode) in
  let! lastPlayedDateKey := redis_get (kLastDate userId requestedMode) in
  mret {| gs_puzzle := puzzle; gs_modeLocked := requestedMode;
          gs_modeIsLocked := modeIsLocked; gs_completedToday := completedToday;
          gs_totalScore := numberOr0 score; gs_streak := numberOr0 strk;
          gs_lastPlayedDateKey := lastPlayedDateKey |}.

(** POST /api/game/lock *)
Definition postLock (W : Reddit) (now : Z) (raw : option Body) : M LockModeResponse :=
  let body := bodyOrEmpty raw in
  let requestedMode := normalizeMode (b_mode body) in
  let dk := resolveDateKey now (b_dateKey body) in
  let userId := userIdOf W in
  let! committed := readCommitted userId requestedMode dk in
  (if committed then skip else commitMode userId requestedMode dk) >>
  let! completedToday := readCompleted userId requestedMode dk in
  mret {| lk_modeLocked := requestedMode; lk_modeIsLocked := true;
          lk_completedToday := completedToday |}.

(** POST /api/game/giveup *)
Definition postGiveUp (W : Reddit) (now : Z) (raw : option Body) : M GiveUpResponse :=
  let body := bodyOrEmpty raw in
  let requestedMode := normalizeMode (b_mode body) in
  let dk := resolveDateKey now (b_dateKey body) in
  let userId := userIdOf W in
  let! committed := readCommitted userId requestedMode dk in
  (if committed then skip else commitMode userId requestedMode dk) >>
  let! completed := readCompleted userId requestedMode dk in
  (if completed then skip else setCompleted userId requestedMode dk) >>
  let! puzzle := buildDailyPuzzle W dk requestedMode in
  mret {| gu_modeLocked := requestedMode; gu_modeIsLocked := true;
          gu_completedToday := true; gu_answer := subreddit puzzle |}.

(** The award of a first win: the statements under
    [if (correct && !alreadyAwarded)]. *)
Definition award (userId : string) (m : GameMode) (dk : string) (now : Z)
    (points : Z) : M unit :=
  let playedKey := kPlayed userId m dk in
  redis_set playedKey "1" >>
  redis_expire playedKey (60 * 60 * 48) >>
  let! prev := redis_get (kScore userId m) in
  let prevScore := numberOr0 prev in
  redis_set (kScore userId m) (showNum (add prevScore points)) >>
  let! last := redis_get (kLastDate userId m) in
  let lastDate := default EmptyString last in
  let! ps := redis_get (kStreak userId m) in
  let prevStreak := numberOr0 ps in
  let yesterday := utcDateKey (now - 24 * 60 * 60 * 1000) in
  let newStreak := if String.eqb lastDate yesterday then add prevStreak 1 else Some 1 in
  redis_set (kStreak userId m) (showNum newStreak) >>
  redis_set (kLastDate userId m) dk.

(** POST /api/game/guess *)
Definition postGuess (W : Reddit) (now : Z) (raw : option Body) : M GuessResponse :=
  let body := bodyOrEmpty raw in
  let subredditGuess := toString (nullish (b_subredditGuess body) (Str EmptyString)) in
  let stageUsed := nullish (b_stageUsed body) (Num 3) in
  let requestedMode := normalizeMode (b_mode body) in
  let dk := resolveDateKey now (b_dateKey body) in
  let userId := userIdOf W in
  let! committed := readCommitted userId requestedMode dk in
  (if committed then skip else commitMode userId requestedMode dk) >>
  let! puzzle := buildDailyPuzzle W dk requestedMode in
  let guess := normalizeGuess subredditGuess in
  let answer := subreddit puzzle in
  let correct := String.eqb (toLowerCase guess) (toLowerCase answer) in
  let! alreadyCompleted := readCompleted userId requestedMode dk in
  let isFinalLoss := negb correct && isNum stageUsed 3 in
  let finishesNow := correct || isFinalLoss in
  let! played := redis_get (kPlayed userId requestedMode dk) in
  let alreadyAwarded := isOne played in
  let! pointsAwarded :=
    (if negb alreadyCompleted then
       let! p := (if correct && negb alreadyAwarded
                  then award userId requestedMode dk now (stagePoints stageUsed) >>
                       (mret (stagePoints stageUsed) : M Z)
                  else mret 0) in
       (if finishesNow then setCompleted userId requestedMode dk else skip) >>
       mret p
     else (mret 0 : M Z)) in
  let! score := redis_get (kScore userId requestedMode) in
  let! strk := redis_get (kStreak userId requestedMode) in
  let! completedToday := readCompleted userId requestedMode dk in
  mret {| correct := correct; stageUsed := stageUsed;
          pointsAwarded := if correct then pointsAwarded else 0;
          answer := answer; totalScore := numberOr0 score; streak := numberOr0 strk;
          modeLocked := requestedMode; modeIsLocked := true;
          completedToday := completedToday |}.

End Rich.

(** The second listing of [src/server/routes/game.ts]: the day key is the
    server's UTC day, there is no [completed] flag, and the community is
    selected through the buckets [qualifying] and [unknownButSafe]. *)
Module Basic.

(** [[a[i], a[j]] = [a[j]!, a[i]!]] *)
Definition swap {A} (a : list A) (i j : nat) : list A :=
  match a !! i, a !! j with
  | Some x, Some y => <[j:=x]> (<[i:=y]> a)
  | _, _ => a
  end.

(** The loop of [shuffleDeterministic], from index [i] down to 1. *)
Fixpoint shuffleLoop {A} (i : nat) (x : Z) (a : list A) : list A :=
  match i with
  | O => a
  | S i' =>
      let x := xorshift x in
      let j := Z.to_nat (Z.abs x mod (Z.of_nat i + 1)) in
      shuffleLoop i' x (swap a i j)
  end.

Definition shuffleDeterministic {A} (arr : list A) (seed : Z) : list A :=
  let x := if seed =? 0 then 123456789 else seed in
  shuffleLoop (length arr - 1) x arr.

Definition safeSubInfo (W : Reddit) (name : string) : option SubInfo :=
  getSubredditInfoByName W name.

(** [Array.from(new Set(xs))]: the first occurrence of each name, in
    order. *)
Fixpoint uniq (xs : list string) (seen : gset string) : list string :=
  match xs with
  | [] => []
  | x :: rest =>
      if decide (x ∈ seen) then uniq rest seen else x :: uniq rest ({[ x ]} ∪ seen)
  end.

(** The loop of the hard tier over the names still to scan. *)
Fixpoint scanHard (W : Reddit) (subs : list string) : option string :=
  match subs with
  | [] => None
  | sub :: rest =>
      match safeSubInfo W sub with
      | None => scanHard W rest
      | Some info => if isNsfwSub info then scanHard W rest else Some sub
      end
  end.

(** The loop of the easy and medium tiers over the names still to scan,
    with the two buckets filled so far. *)
Fixpoint scanBuckets (W : Reddit) (minSubs : Z) (names : list string)
    (qualifying : list (string * Z)) (unknownButSafe : list string)
    : list (string * Z) * list string :=
  match names with
  | [] => (qualifying, unknownButSafe)
  | sub :: rest =>
      match safeSubInfo W sub with
      | None => scanBuckets W minSubs rest qualifying unknownButSafe
      | Some info =>
          if isNsfwSub info then scanBuckets W minSubs rest qualifying unknownButSafe
          else
            let subs := getSubscriberCount info in
            let '(qualifying, unknownButSafe) :=
              if 0 <? subs then
                (if minSubs <=? subs then (qualifying ++ [(sub, subs)])%list else qualifying,
                 unknownButSafe)
              else (qualifying, (unknownButSafe ++ [sub])%list) in
            if 12 <=? len qualifying then (qualifying, unknownButSafe)
            else scanBuckets W minSubs rest qualifying unknownButSafe
      end
  end.

(** [qualifying.sort((a, b) => b.subs - a.subs)]: stable, larger counts
    first. *)
Fixpoint insertDesc (x : string * Z) (l : list (string * Z)) : list (string * Z) :=
  match l with
  | [] => [x]
  | y :: l' => if x.2 <? y.2 then y :: insertDesc x l' else x :: l
  end.

Definition sortDesc (l : list (string * Z)) : list (string * Z) :=
  foldr insertDesc [] l.

(** The names of the posts of the global feed, without repetition. *)
Definition uniqueSubsOf (posts : list Post) : list string :=
  uniq (omap (fun p => truthyName (getPostSubredditName p)) posts) ∅.

Definition subsToScanOf (posts : list Post) (dk : string) (m : GameMode) : list string :=
  shuffleDeterministic (uniqueSubsOf posts) (seedFromString (dk ++ ":" ++ modeName m ++ ":scan")).

(** The buckets after the scan of the easy or medium tier. *)
Definition bucketsOf (W : Reddit) (posts : list Post) (dk : string) (m : GameMode)
    : list (string * Z) * list string :=
  scanBuckets W (minSubsForMode m) (take 60 (subsToScanOf posts dk m)) [] [].

Definition pickSubredditForMode (W : Reddit) (dk : string) (m : GameMode) : result string :=
  posts ← listPosts W "all" 150;
  let uniqueSubs := uniqueSubsOf posts in
  if len uniqueSubs =? 0 then Ok "all" else
  let scanSeed := seedFromString (dk ++ ":" ++ modeName m ++ ":scan") in
  let subsToScan := subsToScanOf posts dk m in
  match m with
  | hard =>
      match scanHard W (take 40 subsToScan) with
      | Some sub => Ok sub
      | None => at_ subsToScan (pickIndex (len subsToScan) scanSeed)
      end
  | _ =>
      let '(qualifying, unknownButSafe) := bucketsOf W posts dk m in
      if 0 <? len qualifying then
        let bucket :=
          match m with
          | easy => take 12 (sortDesc qualifying)
          | _ => qualifying
          end in
        let pickSeed := seedFromString (dk ++ ":" ++ modeName m ++ ":pickQualified") in
        c ← at_ bucket (pickIndex (len bucket) pickSeed); Ok c.1
      else if 0 <? len unknownButSafe then
        let pickSeed := seedFromString (dk ++ ":" ++ modeName m ++ ":pickUnknown") in
        at_ unknownButSafe (pickIndex (len unknownButSafe) pickSeed)
      else at_ subsToScan (pickIndex (len subsToScan) scanSeed)
  end.

Definition buildDailyPuzzle : Reddit -> string -> GameMode -> M DailyPuzzle :=
  buildDailyPuzzleWith pickSubredditForMode.

Record GetStateResponse := {
  gs_puzzle : DailyPuzzle;
  gs_modeLocked : GameMode;
  gs_modeIsLocked : bool;
  gs_totalScore : option Z;
  gs_streak : option Z;
  gs_lastPlayedDateKey : option string;
}.

Record GuessResponse := {
  correct : bool;
  stageUsed : Val;
  pointsAwarded : Z;
  answer : string;
  totalScore : option Z;
  streak : option Z;
  modeLocked : GameMode;
  modeIsLocked : bool;
}.

Definition userIdOf (W : Reddit) : string := default "anon" (getCurrentUser W).

(** GET /api/game/state?mode=... *)
Definition getState (W : Reddit) (now : Z) (q : Body) : M GetStateResponse :=
  let requestedMode := normalizeMode (b_mode q) in
  let dk := utcDateKey now in
  let userId := userIdOf W in
  let! modeIsLocked := readCommitted userId requestedMode dk in
  let! puzzle := buildDailyPuzzle W dk requestedMode in
  let! score := redis_get (kScore userId requestedMode) in
  let! strk := redis_get (kStreak userId requestedMode) in
  let! lastPlayedDateKey := redis_get (kLastDate userId requestedMode) in
  mret {| gs_puzzle := puzzle; gs_modeLocked := requestedMode;
          gs_modeIsLocked := modeIsLocked;
          gs_totalScore := numberOr0 score; gs_streak := numberOr0 strk;
          gs_lastPlayedDateKey := lastPlayedDateKey |}.

(** POST /api/game/lock *)
Definition postLock (W : Reddit) (now : Z) (raw : option Body) : M (GameMode * bool) :=
  let body := bodyOrEmpty raw in
  let requestedMode := normalizeMode (b_mode body) in
  let dk := utcDateKey now in
  let userId := userIdOf W in
  let! already := readCommitted userId requestedMode dk in
  (if already then skip else commitMode userId requestedMode dk) >>
  mret (requestedMode, true).

(** The statements under [if (correct && !alreadyAwarded)]; they are the
    same as in the first listing. *)
Definition award := Rich.award.

(** POST /api/game/guess *)
Definition postGuess (W : Reddit) (now : Z) (raw : option Body) : M GuessResponse :=
  let body := bodyOrEmpty raw in
  let subredditGuess := toString (nullish (b_subredditGuess body) (Str EmptyString)) in
  let stageUsed := nullish (b_stageUsed body) (Num 3) in
  let requestedMode := normalizeMode (b_mode body) in
  let dk := utcDateKey now in
  let userId := userIdOf W in
  let! alreadyCommitted := readCommitted userId requestedMode dk in
  (if alreadyCommitted then skip else commitMode userId requestedMode dk) >>
  let! puzzle := buildDailyPuzzle W dk requestedMode in
  let guess := normalizeGuess subredditGuess in
  let answer := subreddit puzzle in
  let correct := String.eqb (toLowerCase guess) (toLowerCase answer) in
  let! played := redis_get (kPlayed userId requestedMode dk) in
  let alreadyAwarded := isOne played in
  let! pointsAwarded :=
    (if correct && negb alreadyAwarded
     then award userId requestedMode dk now (stagePoints stageUsed) >>
          (mret (stagePoints stageUsed) : M Z)
     else mret 0) in
  let! score := redis_get (kScore userId requestedMode) in
  let! strk := redis_get (kStreak userId requestedMode) in
  mret {| correct := correct; stageUsed := stageUsed;
          pointsAwarded := if correct then pointsAwarded else 0;
          answer := answer; totalScore := numberOr0 score; streak := numberOr0 strk;
          modeLocked := requestedMode; modeIsLocked := true |}.

End Basic.


(** ** The routes in closed form

    The stores and replies the routes produce, written without the monad;
    the lemmas of the second part show that the routes compute them. *)

(** The store after "commit unless committed". *)
Definition committedStore (u : string) (m : GameMode) (dk : string)
    (r : gmap string string) : gmap string string :=
  if isOne (r !! kCommit u m dk) then r else <[kCommit u m dk := "1"]> r.


(** The streak a win stores. *)
Definition newStreakOf (now : Z) (lastDate : option string) (prevStreak : option string)
    : option Z :=
  if String.eqb (default EmptyString lastDate) (utcDateKey (now - 24 * 60 * 60 * 1000))
  then add (numberOr0 prevStreak) 1
  else Some 1.

(** The store after the award of a win. *)
Definition awardedStore (u : string) (m : GameMode) (dk : string) (now points : Z)
    (r : gmap string string) : gmap string string :=
  <[kLastDate u m := dk]>
    (<[kStreak u m := showNum (newStreakOf now (r !! kLastDate u m) (r !! kStreak u m))]>
       (<[kScore u m := showNum (add (numberOr0 (r !! kScore u m)) points)]>
          (<[kPlayed u m dk := "1"]> r))).

Definition guessTextOf (body : Body) : string :=
  toString (nullish (b_subredditGuess body) (Str EmptyString)).

Definition stageOf (body : Body) : Val := nullish (b_stageUsed body) (Num 3).

(** [guess.toLowerCase() === answer.toLowerCase()] *)
Definition guessMatches (guessText answer : string) : bool :=
  String.eqb (toLowerCase (normalizeGuess guessText)) (toLowerCase answer).

Definition mapResult {A B} (f : A -> B) (x : result A) : result B :=
  match x with Ok a => Ok (f a) | Throw e => Throw e end.

(** The puzzle a store holds for a day and mode. *)
Definition cachedPuzzle (r : gmap string string) (dk : string) (m : GameMode)
    : option DailyPuzzle :=
  match cachedText r dk m with
  | Some text => match Json.parse text with Ok p => Some p | Throw _ => None end
  | None => None
  end.

(** Calls handled one after the other: for each, the store before, the
    store after, and the reply. *)
Fixpoint traceOf {Call Reply : Type}
    (handle : Call -> gmap string string -> gmap string string * result Reply)
    (calls : list Call) (r : gmap string string)
    : list (gmap string string * gmap string string * result Reply) :=
  match calls with
  | [] => []
  | c :: rest =>
      let out := handle c r in (r, out.1, out.2) :: traceOf handle rest out.1
  end.


Module RichRun.
Import Rich.

(** The player, mode and day a request speaks about. *)
Definition target (W : Reddit) (now : Z) (body : Body) : string * GameMode * string :=
  (userIdOf W, normalizeMode (b_mode body), resolveDateKey now (b_dateKey body)).

(** The states of a player's day in one mode (spec 4.5). *)
Inductive Phase := Fresh | Committed | Completed.

Definition phaseOf (r : gmap string string) (u : string) (m : GameMode) (dk : string) : Phase :=
  if isOne (r !! kCompleted u m dk) then Completed
  else if isOne (r !! kCommit u m dk) then Committed
  else Fresh.

(** What a guess does once the puzzle is at hand. *)
Definition guessOutcome (u : string) (m : GameMode) (dk : string) (now : Z)
    (stage : Val) (guessText : string) (puzzle : DailyPuzzle)
    (r2 : gmap string string) : gmap string string * result GuessResponse :=
  let isCorrect := guessMatches guessText (subreddit puzzle) in
  let alreadyCompleted := isOne (r2 !! kCompleted u m dk) in
  let alreadyAwarded := isOne (r2 !! kPlayed u m dk) in
  let scored := negb alreadyCompleted && (isCorrect && negb alreadyAwarded) in
  let r3 := if scored then awardedStore u m dk now (stagePoints stage) r2 else r2 in
  let finishes := negb alreadyCompleted && (isCorrect || (negb isCorrect && isNum stage 3)) in
  let r4 := if finishes then <[kCompleted u m dk := "1"]> r3 else r3 in
  (r4, Ok {| correct := isCorrect; stageUsed := stage;
             pointsAwarded := if isCorrect && scored then stagePoints stage else 0;
             answer := subreddit puzzle;
             totalScore := numberOr0 (r4 !! kScore u m);
             streak := numberOr0 (r4 !! kStreak u m);
             modeLocked := m; modeIsLocked := true;
             completedToday := isOne (r4 !! kCompleted u m dk) |}).

(** A call of the guess or of the give-up route. *)
Inductive Call :=
| Guess (W : Reddit) (now : Z) (raw : option Body)
| GiveUp (W : Reddit) (now : Z) (raw : option Body).

Inductive Reply :=
| Guessed (resp : GuessResponse)
| GaveUp (resp : GiveUpResponse).


Definition handle (c : Call) (r : gmap string string) : gmap string string * result Reply :=
  match c with
  | Guess W now raw => let out := postGuess W now raw r in (out.1, mapResult Guessed out.2)
  | GiveUp W now raw => let out := postGiveUp W now raw r in (out.1, mapResult GaveUp out.2)
  end.

Definition targetOf (c : Call) : string * GameMode * string :=
  match c with
  | Guess W now raw | GiveUp W now raw => target W now (bodyOrEmpty raw)
  end.


(** The reply is a correct guess. *)
Definition wins (reply : result Reply) : bool :=
  match reply with
  | Ok (Guessed resp) => correct resp
  | _ => false
  end.

(** The call scored: it awarded the points of its stage and stored the new
    total. *)
Definition scoredBy (u : string) (m : GameMode) (before after : gmap string string)
    (resp : GuessResponse) : Prop :=
  correct resp = true /\
  pointsAwarded resp = stagePoints (stageUsed resp) /\
  after !! kScore u m =
    Some (showNum (add (numberOr0 (before !! kScore u m)) (stagePoints (stageUsed resp)))).

Definition scored (u : string) (m : GameMode) (before after : gmap string string)
    (reply : result Reply) : Prop :=
  exists resp, reply = Ok (Guessed resp) /\ scoredBy u m before after resp /\
               0 < pointsAwarded resp.

End RichRun.

Module BasicRun.
Import Basic.

Definition target (W : Reddit) (now : Z) (body : Body) : string * GameMode * string :=
  (userIdOf W, normalizeMode (b_mode body), utcDateKey now).

(** What a guess does once the puzzle is at hand. *)
Definition guessOutcome (u : string) (m : GameMode) (dk : string) (now : Z)
    (stage : Val) (guessText : string) (puzzle : DailyPuzzle)
    (r2 : gmap string string) : gmap string string * result GuessResponse :=
  let isCorrect := guessMatches guessText (subreddit puzzle) in
  let alreadyAwarded := isOne (r2 !! kPlayed u m dk) in
  let scored := isCorrect && negb alreadyAwarded in
  let r3 := if scored then awardedStore u m dk now (stagePoints stage) r2 else r2 in
  (r3, Ok {| correct := isCorrect; stageUsed := stage;
             pointsAwarded := if isCorrect && scored then stagePoints stage else 0;
             answer := subreddit puzzle;
             totalScore := numberOr0 (r3 !! kScore u m);
             streak := numberOr0 (r3 !! kStreak u m);
             modeLocked := m; modeIsLocked := true |}).

(** A call of the guess route. *)
Record Call := { c_world : Reddit; c_now : Z; c_body : option Body }.

Definition handle (c : Call) (r : gmap string string)
    : gmap string string * result GuessResponse :=
  postGuess (c_world c) (c_now c) (c_body c) r.

Definition targetOf (c : Call) : string * GameMode * string :=
  target (c_world c) (c_now c) (bodyOrEmpty (c_body c)).

Definition wins (reply : result GuessResponse) : bool :=
  match reply with
  | Ok resp => correct resp
  | Throw _ => false
  end.

Definition scoredBy (u : string) (m : GameMode) (before after : gmap string string)
    (resp : GuessResponse) : Prop :=
  correct resp = true /\
  pointsAwarded resp = stagePoints (stageUsed resp) /\
  after !! kScore u m =
    Some (showNum (add (numberOr0 (before !! kScore u m)) (stagePoints (stageUsed resp)))).

Definition scored (u : string) (m : GameMode) (before after : gmap string string)
    (reply : result GuessResponse) : Prop :=
  exists resp, reply = Ok resp /\ scoredBy u m before after resp /\ 0 < pointsAwarded resp.

End BasicRun.


(** ** The calendar, as the streak law of the specification reads it

    "The calendar day immediately before D", computed on the text of a day
    key by the rules of the Gregorian calendar. *)

Definition isLeapYear (y : Z) : bool :=
  (y mod 4 =? 0) && (negb (y mod 100 =? 0) || (y mod 400 =? 0)).

Definition daysInMonth (y m : Z) : Z :=
  if m =? 2 then (if isLeapYear y then 29 else 28)
  else if (m =? 4) || (m =? 6) || (m =? 9) || (m =? 11) then 30
  else 31.

Definition previousDay (ymd : Z * Z * Z) : Z * Z * Z :=
  let '(y, m, d) := ymd in
  if 1 <? d then (y, m, d - 1)
  else if 1 <? m then (y, m - 1, daysInMonth y (m - 1))
  else (y - 1, 12, 31).

Definition parseDateKey (dk : string) : option (Z * Z * Z) :=
  if isDateShape dk then
    y ← toNumber (String.substring 0 4 dk);
    m ← toNumber (String.substring 5 2 dk);
    d ← toNumber (String.substring 8 2 dk);
    Some (y, m, d)
  else None.

Definition dayBefore (dk : string) : option string :=
  (fun ymd => dateText (previousDay ymd)) <$> parseDateKey dk.


(** The check that the day before day number [d] is day number [d - 1],
    and its run over a range of day numbers. *)
Definition dayCheck (d : Z) : bool :=
  match dayBefore (dateText (civilFromDays d)) with
  | Some s => String.eqb s (dateText (civilFromDays (d - 1)))
  | None => false
  end.

Fixpoint allFrom (ok : Z -> bool) (n : nat) (d : Z) : bool :=
  match n with
  | O => true
  | S n' => ok d && allFrom ok n' (d + 1)
  end.

(** ** A small content source and a few stores, for the examples *)
Module Demo.

Definition post (sub id : string) : Post :=
  {| p_subredditName := Some sub; p_subredditObjName := None; p_subreddit := None;
     p_id := id; p_title := Some "A title"; p_selftext := None; p_body := None |}.

Definition info (subscribers : Val) : SubInfo :=
  {| i_subscribers := subscribers; i_subscriberCount := Undefined;
     i_subscriber_count := Undefined; i_subscribersCount := Undefined;
     i_communitySize := Undefined;
     i_nsfw := Undefined; i_isNsfw := Undefined; i_over18 := Bool false;
     i_isOver18 := Undefined; i_over_18 := Undefined |}.

Definition comments : list Comment :=
  [ {| c_id := "t1_a"; c_body := Some "[deleted]" |};
    {| c_id := "t1_b"; c_body := Some "too short" |};
    {| c_id := "t1_c"; c_body := Some "  a comment that is long enough to be a clue  " |} ].

Definition feed : list Post :=
  [post "funny" "t3_a"; post "aww" "t3_b"; post "funny" "t3_c"].

(** Two communities with known counts: funny has 50 million subscribers,
    aww has 2 million. *)
Definition world : Reddit :=
  {| getNewPosts := fun sub _ =>
       if String.eqb sub "all" then Some feed else Some [post sub "t3_z"];
     getHotPosts := fun _ _ => None;
     getComments := fun _ _ => Some comments;
     getSubredditInfoByName := fun s =>
       if String.eqb s "funny" then Some (info (Num 50000000))
       else if String.eqb s "aww" then Some (info (Num 2000000))
       else None;
     getCurrentUser := Some "t2_u" |}.


(** The same feed when the metadata of every community lacks a subscriber
    count. *)
Definition worldWithoutCounts : Reddit :=
  {| getNewPosts := getNewPosts world;
     getHotPosts := getHotPosts world;
     getComments := getComments world;
     getSubredditInfoByName := fun _ => Some (info Undefined);
     getCurrentUser := getCurrentUser world |}.

Definition puzzle (dk : string) (m : GameMode) : DailyPuzzle :=
  {| dateKey := dk; mode := m; subreddit := "funny"; postId := "t3_a";
     postTitle := "A title"; postBody := EmptyString;
     commentId := "t1_c"; commentBody := "a comment that is long enough to be a clue" |}.

Definition jan10 : Z := 1704888000000.

Definition guessBody (text : string) (stage : Z) (m dk : Val) : Body :=
  {| b_subredditGuess := Str text; b_stageUsed := Num stage; b_mode := m; b_dateKey := dk |}.

(** A player of the easy mode with a streak of 4 whose last win was
    recorded for 2024-01-09; the puzzle of [dk] is cached. *)
Definition storeWithStreak (dk : string) : gmap string string :=
  <[kPuzzle dk easy := Json.stringify (puzzle dk easy)]>
    (<[kStreak "t2_u" easy := "4"]>
       (<[kLastDate "t2_u" easy := "2024-01-09"]>
          (<[kScore "t2_u" easy := "250"]> ∅))).

(** A correct guess at stage 1 in the easy mode, without a day key. *)
Definition winBody : Body := guessBody "r/Funny" 1 (Str "easy") Undefined.



(** The reply to [winBody] on 2024-01-10 from [storeWithStreak]. *)
Definition winReply : Rich.GuessResponse :=
  {| Rich.correct := true; Rich.stageUsed := Num 1; Rich.pointsAwarded := 100;
     Rich.answer := "funny"; Rich.totalScore := Some 350; Rich.streak := Some 5;
     Rich.modeLocked := easy; Rich.modeIsLocked := true; Rich.completedToday := true |}.

Definition basicWinReply : Basic.GuessResponse :=
  {| Basic.correct := true; Basic.stageUsed := Num 1; Basic.pointsAwarded := 100;
     Basic.answer := "funny"; Basic.totalScore := Some 350; Basic.streak := Some 5;
     Basic.modeLocked := easy; Basic.modeIsLocked := true |}.

(** A store in which the medium mode of 2024-01-10 is completed, and calls
    that follow. *)
Definition doneStore : gmap string string :=
  <[kCompleted "t2_u" medium "2024-01-10" := "1"]> ∅.


Definition stateQuery : Body :=
  {| b_subredditGuess := Undefined; b_stageUsed := Undefined;
     b_mode := Str "easy"; b_dateKey := Undefined |}.

End Demo.

(** ** What the buckets of the second listing hold *)

(** The subscriber count of a community is known: its metadata was found
    and holds a positive count ([subs > 0] in the code). *)
Definition countKnown (W : Reddit) (sub : string) : bool :=
  match getSubredditInfoByName W sub with
  | Some info => 0 <? getSubscriberCount info
  | None => false
  end.

(** An entry of [qualifying]: metadata found, not adult, a known count that
    reaches the threshold. *)
Definition qualifies (W : Reddit) (minSubs : Z) (x : string * Z) : Prop :=
  exists info,
    getSubredditInfoByName W x.1 = Some info /\ isNsfwSub info = false /\
    x.2 = getSubscriberCount info /\ 0 < x.2 /\ minSubs <= x.2.

(** An entry of [unknownButSafe]: metadata found, not adult, no known
    count. *)
Definition unknownSafe (W : Reddit) (sub : string) : Prop :=
  exists info,
    getSubredditInfoByName W sub = Some info /\ isNsfwSub info = false /\
    getSubscriberCount info <= 0.

(** ** Auxiliary predicates of the further properties *)

(** A community the hard tier of the second listing accepts: metadata
    found and not adult. *)
Definition safeListed (W : Reddit) (sub : string) : bool :=
  match getSubredditInfoByName W sub with
  | Some info => negb (isNsfwSub info)
  | None => false
  end.

(** ** The guess box of the client ([src/client/game.tsx]) *)

(** [s.slice(n)] for a count [n] that is not negative. *)
Fixpoint sliceFrom (n : nat) (s : string) : string :=
  match n, s with
  | O, _ => s
  | S n', String _ r => sliceFrom n' r
  | S _, EmptyString => EmptyString
  end.

(** What the client sends as [subredditGuess] for the typed text. *)
Definition normalizeInput (v : string) : string :=
  let s := trim v in
  let s := if startsWith "/r/" (toLowerCase s) then sliceFrom 3 s else s in
  let s := if startsWith "r/" (toLowerCase s) then sliceFrom 2 s else s in
  s.

(** The spellings of a community prefix that players type. *)
Definition communityPrefixes : list string := [""; "r/"; "/r/"; "R/"; "/R/"].

(** ** The keys of a player *)

(** A text without a colon, as the ids of players are ([t2_...], [anon]). *)
Definition noColon (s : string) : bool := allChars (fun c => negb (Ascii.eqb c ":")) s.

(** What the store keeps for a player and mode: three totals, and three
    flags for each day. *)
Inductive Slot :=
| SScore
| SStreak
| SLastDate
| SPlayed (dk : string)
| SCommit (dk : string)
| SCompleted (dk : string).

Definition keyOf (userId : string) (m : GameMode) (s : Slot) : string :=
  match s with
  | SScore => kScore userId m
  | SStreak => kStreak userId m
  | SLastDate => kLastDate userId m
  | SPlayed dk => kPlayed userId m dk
  | SCommit dk => kCommit userId m dk
  | SCompleted dk => kCompleted userId m dk
  end.

(** The day of a flag. *)
Definition dayOf (s : Slot) : option string :=
  match s with
  | SPlayed dk | SCommit dk | SCompleted dk => Some dk
  | _ => None
  end.

(** The part of a key after the mode. *)
Definition tailOf (s : Slot) : string :=
  match s with
  | SScore => "score"
  | SStreak => "streak"
  | SLastDate => "lastDate"
  | SPlayed dk => "played:" ++ dk
  | SCommit dk => "commit:" ++ dk
  | SCompleted dk => "completed:" ++ dk
  end.

(** The content source of [Demo.world] when no post has a comment. *)
Definition quietWorld : Reddit :=
  {| getNewPosts := getNewPosts Demo.world;
     getHotPosts := getHotPosts Demo.world;
     getComments := fun _ _ => Some [];
     getSubredditInfoByName := getSubredditInfoByName Demo.world;
     getCurrentUser := getCurrentUser Demo.world |}.
(** * Properties *)

#[local] Arguments String.append !_ _ / : simpl nomatch.

(** ** Texts *)

Lemma append_assoc (a b c : string) : (a ++ b) ++ c = a ++ (b ++ c).
Proof. induction a as [|x a IH]; cbn [append]; [reflexivity | now f_equal]. Qed.

Lemma append_cancel_l (p a b : string) : p ++ a = p ++ b -> a = b.
Proof. induction p as [|x p IH]; cbn [append]; intros H; [assumption | injection H; auto]. Qed.

(** ** The JSON text of a puzzle reads back as the puzzle *)
Module JsonFacts.
Import Json.

Lemma unescape_escapeChar (c : ascii) (t : string) :
  unescape (escapeChar c ++ t) = consTo c (unescape t).
Proof. destruct c as [[] [] [] [] [] [] [] []]; reflexivity. Qed.

Lemma unescape_escape (s rest : string) :
  unescape (escape s ++ String dq rest) = Some (s, rest).
Proof.
  induction s as [|c s IH].
  - reflexivity.
  - cbn [escape]. rewrite append_assoc, unescape_escapeChar, IH. reflexivity.
Qed.

Lemma expect_append (lit s : string) : expect lit (lit ++ s) = Some s.
Proof.
  induction lit as [|a lit IH]; [now destruct s |].
  cbn [append expect]. now rewrite Ascii.eqb_refl.
Qed.

Lemma member_quote (sep name v rest : string) :
  member sep name (sep ++ quote name ++ ":" ++ quote v ++ rest) = Some (v, rest).
Proof.
  unfold member.
  replace (sep ++ quote name ++ ":" ++ quote v ++ rest)
    with ((sep ++ quote name ++ String ":" (String dq EmptyString))
            ++ (escape v ++ String dq rest)).
  - rewrite expect_append. apply unescape_escape.
  - unfold quote. rewrite !append_assoc. f_equal. cbn [append].
    f_equal. rewrite !append_assoc. cbn [append]. reflexivity.
Qed.

Lemma modeOfName_modeName (m : GameMode) : modeOfName (modeName m) = Some m.
Proof. now destruct m. Qed.

Lemma parse_stringify (p : DailyPuzzle) : parse (stringify p) = Ok p.
Proof.
  destruct p as [dk m sub pid pt pb cid cb].
  unfold parse, stringify. cbn [dateKey mode subreddit postId postTitle postBody commentId commentBody].
  rewrite member_quote. cbn [mbind option_bind].
  rewrite member_quote. cbn [mbind option_bind].
  rewrite modeOfName_modeName. cbn [mbind option_bind].
  do 5 (rewrite member_quote; cbn [mbind option_bind]).
  rewrite member_quote. cbn [mbind option_bind]. reflexivity.
Qed.

Lemma stringify_nonempty (p : DailyPuzzle) : stringify p <> EmptyString.
Proof. unfold stringify. cbn [append]. discriminate. Qed.
End JsonFacts.

(** ** Keys

    The keys of the store are texts put together from the player, the mode
    and the day; [key_ne] proves two of them different, either because one
    is the key of a puzzle or by their endings. *)

(** The key of a puzzle is no key of a player. *)
Lemma kPuzzle_not_user (dk : string) (m : GameMode) (rest : string) :
  kPuzzle dk m <> "nts:user:" ++ rest.
Proof. unfold kPuzzle. cbn [append]. congruence. Qed.

Lemma userKey_inj (userId : string) (m : GameMode) (e1 e2 : string) :
  userKey userId m e1 = userKey userId m e2 -> e1 = e2.
Proof.
  unfold userKey. intros H.
  do 4 apply append_cancel_l in H. exact H.
Qed.

Ltac key_ne :=
  match goal with
  | |- ?a <> ?b =>
      first
        [ apply kPuzzle_not_user
        | apply not_eq_sym; apply kPuzzle_not_user
        | let H := fresh in
          intros H; apply userKey_inj in H; cbn [append] in H; congruence ]
  end.

(** ** The monad of a route *)

Lemma bindM_eq {A B} (m : M A) (f : A -> M B) (r : gmap string string) :
  bindM m f r =
  match m r with
  | (r', Ok a) => f a r'
  | (r', Throw e) => (r', Throw e)
  end.
Proof. reflexivity. Qed.

(** ** [buildDailyPuzzle]: a cache hit and a cache miss *)

Section BuildFacts.

Variable pick : Reddit -> string -> GameMode -> result string.

Lemma build_hit W dk m (r : gmap string string) text :
  cachedText r dk m = Some text ->
  buildDailyPuzzleWith pick W dk m r = (r, Json.parse text).
Proof.
  unfold cachedText, buildDailyPuzzleWith. rewrite bindM_eq. cbn [redis_get].
  destruct (r !! kPuzzle dk m) as [[|c t]|]; try discriminate.
  intros [= <-]. reflexivity.
Qed.

Lemma build_miss W dk m (r : gmap string string) :
  cachedText r dk m = None ->
  buildDailyPuzzleWith pick W dk m r =
  match freshPuzzle pick W dk m with
  | Ok p => (<[kPuzzle dk m := Json.stringify p]> r, Ok p)
  | Throw e => (r, Throw e)
  end.
Proof.
  unfold cachedText, buildDailyPuzzleWith, freshPuzzle. rewrite bindM_eq. cbn [redis_get].
  intros Hmiss.
  destruct (r !! kPuzzle dk m) as [[|c t]|]; try discriminate Hmiss; clear Hmiss.
  all: cbv beta iota.
  all: rewrite bindM_eq; unfold lift at 1.
  all: destruct (pick W dk m) as [sub|e]; [|reflexivity].
  all: rewrite bindM_eq; unfold lift at 1.
  all: destruct (listPosts W sub 50) as [posts|e]; [|reflexivity].
  all: destruct (len posts =? 0); [reflexivity|].
  all: rewrite bindM_eq; unfold lift at 1.
  all: destruct (at_ posts _) as [post|e]; [|reflexivity].
  all: rewrite bindM_eq; unfold lift at 1.
  all: destruct (getComments W (p_id post) 200) as [comments|]; [|reflexivity].
  all: destruct (len (commentPool sub comments) =? 0); [reflexivity|].
  all: rewrite bindM_eq; unfold lift at 1.
  all: destruct (at_ (commentPool sub comments) _) as [comment|e]; reflexivity.
Qed.

(** A call writes nothing but the cache entry of its day and mode. *)
Lemma build_frame W dk m (r : gmap string string) (k : string) :
  k <> kPuzzle dk m ->
  (buildDailyPuzzleWith pick W dk m r).1 !! k = r !! k.
Proof.
  intros Hk. destruct (cachedText r dk m) as [text|] eqn:Hc.
  - rewrite (build_hit _ _ _ _ _ Hc). reflexivity.
  - rewrite (build_miss _ _ _ _ Hc). destruct (freshPuzzle pick W dk m); cbn [fst].
    + now rewrite lookup_insert_ne.
    + reflexivity.
Qed.

(** After a call that returned, the cache holds the text of what it
    returned, or what it held before. *)
Lemma build_twice W dk m (r : gmap string string) :
  let out := buildDailyPuzzleWith pick W dk m r in
  buildDailyPuzzleWith pick W dk m out.1 = out.
Proof.
  cbn zeta. destruct (cachedText r dk m) as [text|] eqn:Hc.
  - rewrite (build_hit _ _ _ _ _ Hc). cbn [fst]. apply build_hit, Hc.
  - rewrite (build_miss _ _ _ _ Hc). destruct (freshPuzzle pick W dk m) as [p|e] eqn:Hf; cbn [fst].
    + assert (Hc' : cachedText (<[kPuzzle dk m := Json.stringify p]> r) dk m
                    = Some (Json.stringify p)).
      { unfold cachedText. rewrite lookup_insert_eq.
        pose proof (JsonFacts.stringify_nonempty p).
        destruct (Json.stringify p); [contradiction | reflexivity]. }
      rewrite (build_hit _ _ _ _ _ Hc'), JsonFacts.parse_stringify. reflexivity.
    + rewrite (build_miss _ _ _ _ Hc), Hf. reflexivity.
Qed.

End BuildFacts.

(** ** The routes, step by step *)

Lemma ensureCommitted_run {A} u m dk (k : M A) (r : gmap string string) :
  (let! committed := readCommitted u m dk in
   (if committed then skip else commitMode u m dk) >> k) r
  = k (committedStore u m dk r).
Proof.
  cbv [committedStore readCommitted commitMode skip bindM mbind M_bind mret M_ret
       redis_get redis_set redis_expire].
  destruct (isOne (r !! kCommit u m dk)); reflexivity.
Qed.


Lemma award_run u m dk now points (r : gmap string string) :
  Rich.award u m dk now points r = (awardedStore u m dk now points r, Ok tt).
Proof.
  cbv [Rich.award awardedStore newStreakOf bindM mbind M_bind mret M_ret
       redis_get redis_set redis_expire].
  rewrite !lookup_insert_ne by key_ne. reflexivity.
Qed.

Module RichFacts.
Import Rich RichRun.

Lemma postGuess_run W now raw (r : gmap string string) u m dk :
  target W now (bodyOrEmpty raw) = (u, m, dk) ->
  postGuess W now raw r =
  match buildDailyPuzzle W dk m (committedStore u m dk r) with
  | (r2, Ok puzzle) =>
      guessOutcome u m dk now (stageOf (bodyOrEmpty raw)) (guessTextOf (bodyOrEmpty raw)) puzzle r2
  | (r2, Throw e) => (r2, Throw e)
  end.
Proof.
  unfold target. intros [= <- <- <-].
  unfold postGuess. cbv zeta.
  rewrite ensureCommitted_run, bindM_eq.
  destruct (buildDailyPuzzle _ _ _ _) as [r2 [puzzle|e]]; [|reflexivity].
  unfold guessOutcome, stageOf, guessTextOf, guessMatches.
  set (u := userIdOf W). set (m := normalizeMode _). set (dk := resolveDateKey _ _).
  set (stage := nullish (b_stageUsed _) _).
  set (isCorrect := String.eqb _ _).
  cbv [readCompleted bindM mbind M_bind mret M_ret redis_get skip setCompleted
       redis_set redis_expire].
  destruct (isOne (r2 !! kCompleted u m dk)) eqn:Hc;
    destruct isCorrect; destruct (isOne (r2 !! kPlayed u m dk)) eqn:Hp;
    destruct (isNum stage 3); cbn [negb andb orb]; try rewrite award_run; reflexivity.
Qed.


Lemma getState_store W now q (r : gmap string string) :
  (getState W now q r).1 =
  (buildDailyPuzzle W (resolveDateKey now (b_dateKey q)) (normalizeMode (b_mode q)) r).1.
Proof.
  unfold getState.
  cbv [readCommitted readCompleted bindM mbind M_bind mret M_ret redis_get].
  destruct (buildDailyPuzzle _ _ _ _) as [r2 [puzzle|e]]; reflexivity.
Qed.

End RichFacts.

(** ** Frames *)

Lemma committedStore_other u m dk (r : gmap string string) (k : string) :
  k <> kCommit u m dk -> committedStore u m dk r !! k = r !! k.
Proof.
  intros Hk. unfold committedStore. destruct (isOne _); [reflexivity|].
  now rewrite lookup_insert_ne.
Qed.

Lemma committedStore_committed u m dk (r : gmap string string) :
  isOne (committedStore u m dk r !! kCommit u m dk) = true.
Proof.
  unfold committedStore. destruct (isOne (r !! kCommit u m dk)) eqn:E; [exact E|].
  now rewrite lookup_insert_eq.
Qed.



Lemma cachedText_ext (r r' : gmap string string) dk m :
  r' !! kPuzzle dk m = r !! kPuzzle dk m -> cachedText r' dk m = cachedText r dk m.
Proof. unfold cachedText. now intros ->. Qed.

Lemma cachedPuzzle_ext (r r' : gmap string string) dk m :
  r' !! kPuzzle dk m = r !! kPuzzle dk m -> cachedPuzzle r' dk m = cachedPuzzle r dk m.
Proof. unfold cachedPuzzle. intros H. now rewrite (cachedText_ext _ _ _ _ H). Qed.

Section BuildCache.
Variable pick : Reddit -> string -> GameMode -> result string.

(** With a puzzle in the cache, a call returns it and writes nothing. *)
Lemma build_cached W dk m (r : gmap string string) p :
  cachedPuzzle r dk m = Some p ->
  buildDailyPuzzleWith pick W dk m r = (r, Ok p).
Proof.
  unfold cachedPuzzle. destruct (cachedText r dk m) as [text|] eqn:Hc; [|discriminate].
  destruct (Json.parse text) as [q|e] eqn:Hp; [|discriminate].
  intros [= <-]. now rewrite (build_hit _ _ _ _ _ _ Hc), Hp.
Qed.

(** A call that returns a puzzle leaves that puzzle in the cache. *)
Lemma build_caches W dk m (r : gmap string string) r2 p :
  buildDailyPuzzleWith pick W dk m r = (r2, Ok p) ->
  cachedPuzzle r2 dk m = Some p.
Proof.
  destruct (cachedText r dk m) as [text|] eqn:Hc.
  - rewrite (build_hit _ _ _ _ _ _ Hc). intros [= <- Hp].
    unfold cachedPuzzle. now rewrite Hc, Hp.
  - rewrite (build_miss _ _ _ _ _ Hc).
    destruct (freshPuzzle pick W dk m) as [q|e]; [|discriminate].
    intros [= <- <-]. unfold cachedPuzzle, cachedText. rewrite lookup_insert_eq.
    pose proof (JsonFacts.stringify_nonempty q) as Hne.
    destruct (Json.stringify q) eqn:Hs; [contradiction|].
    rewrite <- Hs, JsonFacts.parse_stringify. reflexivity.
Qed.
End BuildCache.

Module RichSteps.
Import Rich RichRun.




End RichSteps.

Module RichAbsorbing.
Import Rich RichRun RichSteps.


End RichAbsorbing.


(** C9 (the state request). Handling a state request leaves the committed,
    completed and points-awarded flags and the total score, streak and last
    played day of every player, mode and day as they were: the one key it
    may write is the cache entry of the puzzle of the requested day and
    mode, which holds no state of a player. *)
Theorem state_request_is_read_only (W : Reddit) (now : Z) (q : Body)
    (r : gmap string string) (u : string) (m : GameMode) (dk : string) :
  let after := (Rich.getState W now q r).1 in
  after !! kCommit u m dk = r !! kCommit u m dk /\
  after !! kCompleted u m dk = r !! kCompleted u m dk /\
  after !! kPlayed u m dk = r !! kPlayed u m dk /\
  after !! kScore u m = r !! kScore u m /\
  after !! kStreak u m = r !! kStreak u m /\
  after !! kLastDate u m = r !! kLastDate u m /\
  RichRun.phaseOf after u m dk = RichRun.phaseOf r u m dk /\
  forall k, k <> kPuzzle (Rich.resolveDateKey now (b_dateKey q)) (normalizeMode (b_mode q)) ->
            after !! k = r !! k.
Proof.
  cbv zeta. rewrite RichFacts.getState_store. unfold Rich.buildDailyPuzzle.
  assert (H : forall k,
             k <> kPuzzle (Rich.resolveDateKey now (b_dateKey q)) (normalizeMode (b_mode q)) ->
             (buildDailyPuzzleWith Rich.pickSubredditForMode W
                (Rich.resolveDateKey now (b_dateKey q)) (normalizeMode (b_mode q)) r).1 !! k
             = r !! k) by (intros; now apply build_frame).
  unfold RichRun.phaseOf.
  rewrite !H by key_ne. repeat split. exact H.
Qed.

(** ** Every community a selection returns has a name *)

Lemma at_elem {A} (l : list A) (i : Z) (a : A) : at_ l i = Ok a -> a ∈ l.
Proof.
  unfold at_. destruct (l !! Z.to_nat i) eqn:E; [|discriminate].
  intros [= <-]. now apply list_elem_of_lookup_2 in E.
Qed.

Lemma truthyName_nonempty (o : option string) (s : string) :
  truthyName o = Some s -> s <> EmptyString.
Proof. destruct o as [[|c t]|]; cbn; congruence. Qed.

Module RichPick.
Import Rich.


Lemma scanCandidates_elem W minSubs cands baseSeed ixs :
  forall tried sub,
    scanCandidates W minSubs cands baseSeed ixs tried = Ok (Some sub) ->
    exists c, c ∈ cands /\ c.2 = sub.
Proof.
  induction ixs as [|i rest IH]; intros tried sub; cbn [scanCandidates]; [discriminate|].
  destruct (at_ cands _) as [c|e] eqn:Hat; cbn [mbind result_bind]; [|discriminate].
  apply at_elem in Hat.
  destruct (decide (c.2 ∈ tried)); [apply IH|].
  destruct (getSubredditInfoByName W c.2) as [info|]; [|apply IH].
  destruct (isNsfwSub info); [apply IH|].
  destruct ((getSubscriberCount info =? 0) || (minSubs <=? getSubscriberCount info)); [|apply IH].
  intros [= <-]. now exists c.
Qed.


End RichPick.







(** ** One change of a key along a trace *)

Section SingleChange.

Context {Call Reply : Type}.
Variable handle : Call -> gmap string string -> gmap string string * result Reply.
Variable valid : Call -> Prop.
Variable locked : gmap string string -> bool.
Variable wins : result Reply -> bool.
Variable key : string.

Hypothesis locked_frame : forall c r,
  valid c -> locked r = true ->
  (handle c r).1 !! key = r !! key /\ locked (handle c r).1 = true.
Hypothesis wins_locks : forall c r,
  valid c -> wins (handle c r).2 = true -> locked (handle c r).1 = true.
Hypothesis change_wins : forall c r,
  valid c -> (handle c r).1 !! key <> r !! key -> wins (handle c r).2 = true.



End SingleChange.





Lemma awardedStore_played u m dk now points (r : gmap string string) :
  awardedStore u m dk now points r !! kPlayed u m dk = Some "1".
Proof.
  unfold awardedStore. rewrite !lookup_insert_ne by key_ne. apply lookup_insert_eq.
Qed.

Module RichAward.
Import Rich RichRun.



End RichAward.

Module BasicFacts.
Import Basic BasicRun.

Lemma basic_postGuess_run W now raw (r : gmap string string) u m dk :
  target W now (bodyOrEmpty raw) = (u, m, dk) ->
  postGuess W now raw r =
  match buildDailyPuzzle W dk m (committedStore u m dk r) with
  | (r2, Ok puzzle) =>
      guessOutcome u m dk now (stageOf (bodyOrEmpty raw)) (guessTextOf (bodyOrEmpty raw)) puzzle r2
  | (r2, Throw e) => (r2, Throw e)
  end.
Proof.
  unfold target. intros [= <- <- <-].
  unfold postGuess. cbv zeta.
  rewrite ensureCommitted_run, bindM_eq.
  destruct (buildDailyPuzzle _ _ _ _) as [r2 [puzzle|e]]; [|reflexivity].
  unfold guessOutcome, stageOf, guessTextOf, guessMatches, award.
  set (u := userIdOf W). set (m := normalizeMode _). set (dk := utcDateKey _).
  set (stage := nullish (b_stageUsed _) _).
  set (isCorrect := String.eqb _ _).
  cbv [bindM mbind M_bind mret M_ret redis_get].
  destruct isCorrect; destruct (isOne (r2 !! kPlayed u m dk)) eqn:Hp;
    cbn [negb andb orb]; try rewrite award_run; reflexivity.
Qed.




End BasicFacts.


(** ** The server's yesterday is the calendar day before the server's day *)

Lemma allFrom_spec (ok : Z -> bool) (n : nat) :
  forall d0, allFrom ok n d0 = true ->
  forall d, d0 <= d < d0 + Z.of_nat n -> ok d = true.
Proof.
  induction n as [|n IH]; intros d0 Hall d Hd; [lia|].
  cbn [allFrom] in Hall. apply andb_true_iff in Hall as [H0 Hrest].
  destruct (Z.eq_dec d d0) as [->|Hne]; [exact H0|].
  apply (IH (d0 + 1) Hrest). lia.
Qed.

Lemma dayCheck_all : allFrom dayCheck (Z.to_nat 47482) 0 = true.
Proof. vm_compute. reflexivity. Qed.

Lemma utc_yesterday_is_day_before (now : Z) :
  0 <= now < 4102444800000 ->
  dayBefore (utcDateKey now) = Some (utcDateKey (now - 24 * 60 * 60 * 1000)).
Proof.
  intros Hnow. unfold utcDateKey, utcDate, msPerDay.
  replace (now - 24 * 60 * 60 * 1000) with (now + (-1) * 86400000) by lia.
  rewrite Z.div_add by lia.
  set (d := now / 86400000).
  assert (Hd : 0 <= d < 47482).
  { subst d. split; [apply Z.div_pos; lia | apply Z.div_lt_upper_bound; lia]. }
  pose proof (allFrom_spec dayCheck _ _ dayCheck_all d) as Hall.
  assert (Hok : dayCheck d = true) by (apply Hall; rewrite Z2Nat.id; lia).
  unfold dayCheck in Hok.
  replace (d + -1) with (d - 1) by lia.
  destruct (dayBefore (dateText (civilFromDays d))) as [s|]; [|discriminate].
  apply String.eqb_eq in Hok. now subst s.
Qed.




Lemma awardedStore_lastDate u m dk now points (r : gmap string string) :
  awardedStore u m dk now points r !! kLastDate u m = Some dk.
Proof. unfold awardedStore. apply lookup_insert_eq. Qed.



(** ** Picking an index, and the pools of comments *)

Lemma pickIndex_range (n seed : Z) : 0 < n -> 0 <= pickIndex n seed < n.
Proof. intros Hn. unfold pickIndex. apply Z.mod_pos_bound. exact Hn. Qed.

Lemma at_pick {A} (l : list A) (seed : Z) :
  l <> [] -> exists a, at_ l (pickIndex (len l) seed) = Ok a /\ a ∈ l.
Proof.
  intros Hne. unfold at_.
  assert (Hlen : 0 < len l) by (unfold len; destruct l; [contradiction | cbn; lia]).
  pose proof (pickIndex_range (len l) seed Hlen) as Hr.
  destruct (l !! Z.to_nat (pickIndex (len l) seed)) as [a|] eqn:E.
  - exists a. split; [reflexivity | now apply list_elem_of_lookup_2 in E].
  - apply lookup_ge_None in E. unfold len in *. lia.
Qed.

Lemma len_zero {A} (l : list A) : (len l =? 0) = true <-> l = [].
Proof.
  unfold len. destruct l; cbn; [tauto|]. split; [|discriminate].
  intros H. apply Z.eqb_eq in H. lia.
Qed.


Lemma elem_of_filter_bool {A} (f : A -> bool) (l : list A) (x : A) :
  x ∈ List.filter f l <-> x ∈ l /\ f x = true.
Proof. rewrite !list_elem_of_In. apply filter_In. Qed.







Section Selection.
Variable pick : Reddit -> string -> GameMode -> result string.


End Selection.


(** ** Repeated builds *)

Section Repeat.
Variable pick : Reddit -> string -> GameMode -> result string.

Lemma repeated_builds W dk m (n : nat) :
  forall r : gmap string string,
    cachedText r dk m = None \/
    (exists p, freshPuzzle pick W dk m = Ok p /\ cachedPuzzle r dk m = Some p) ->
    Forall (fun s => s.2 = freshPuzzle pick W dk m)
           (traceOf (fun _ : unit => buildDailyPuzzleWith pick W dk m) (replicate n tt) r).
Proof.
  induction n as [|n IH]; intros r Hinv; [constructor|].
  cbn [replicate traceOf]. destruct Hinv as [Hmiss | (p & Hf & Hp)].
  - pose proof (build_miss pick W dk m r Hmiss) as Hb.
    pose proof (build_caches pick W dk m r) as Hcache.
    destruct (freshPuzzle pick W dk m) as [p|e] eqn:Hf; rewrite Hb; cbn [fst snd].
    + constructor; [reflexivity|]. apply IH. right. exists p. split; [reflexivity|].
      apply (Hcache _ p). exact Hb.
    + constructor; [reflexivity|]. apply IH. now left.
  - rewrite (build_cached pick W dk m r p Hp). cbn [fst snd].
    constructor; [now rewrite Hf|]. apply IH. right. now exists p.
Qed.

Lemma builds_agree W dk m (r1 r2 : gmap string string) (n1 n2 : nat) s1 s2 :
  cachedText r1 dk m = None ->
  cachedText r2 dk m = None ->
  s1 ∈ traceOf (fun _ : unit => buildDailyPuzzleWith pick W dk m) (replicate n1 tt) r1 ->
  s2 ∈ traceOf (fun _ : unit => buildDailyPuzzleWith pick W dk m) (replicate n2 tt) r2 ->
  s1.2 = s2.2.
Proof.
  intros H1 H2 Hs1 Hs2.
  pose proof (repeated_builds W dk m n1 r1 (or_introl H1)) as F1.
  pose proof (repeated_builds W dk m n2 r2 (or_introl H2)) as F2.
  rewrite Forall_forall in F1, F2.
  now rewrite (F1 _ Hs1), (F2 _ Hs2).
Qed.

End Repeat.

(** C6 (determinism of the build). For a day, a mode and one snapshot of
    the content source: a second call of [buildDailyPuzzle] returns what
    the first returned and leaves the store as the first left it; and over
    any two runs of calls, each started from a store without a cache entry
    for that day and mode (whatever else the store holds), every call
    returns the same result, the first of a run by building, the later
    ones from the cache entry. The same holds for both listings. *)
Theorem build_is_deterministic (W : Reddit) (dk : string) (m : GameMode) :
  (forall r : gmap string string,
     let out := Rich.buildDailyPuzzle W dk m r in
     Rich.buildDailyPuzzle W dk m out.1 = out) /\
  (forall (r1 r2 : gmap string string) (n1 n2 : nat) s1 s2,
     cachedText r1 dk m = None ->
     cachedText r2 dk m = None ->
     s1 ∈ traceOf (fun _ : unit => Rich.buildDailyPuzzle W dk m) (replicate n1 tt) r1 ->
     s2 ∈ traceOf (fun _ : unit => Rich.buildDailyPuzzle W dk m) (replicate n2 tt) r2 ->
     s1.2 = s2.2) /\
  (forall r : gmap string string,
     let out := Basic.buildDailyPuzzle W dk m r in
     Basic.buildDailyPuzzle W dk m out.1 = out) /\
  (forall (r1 r2 : gmap string string) (n1 n2 : nat) s1 s2,
     cachedText r1 dk m = None ->
     cachedText r2 dk m = None ->
     s1 ∈ traceOf (fun _ : unit => Basic.buildDailyPuzzle W dk m) (replicate n1 tt) r1 ->
     s2 ∈ traceOf (fun _ : unit => Basic.buildDailyPuzzle W dk m) (replicate n2 tt) r2 ->
     s1.2 = s2.2).
Proof.
  split; [|split; [|split]].
  - intros r. apply build_twice.
  - intros r1 r2 n1 n2 s1 s2. apply builds_agree.
  - intros r. apply build_twice.
  - intros r1 r2 n1 n2 s1 s2. apply builds_agree.
Qed.

(** ** The normalisation of a guess *)

Lemma keepChars_all (keep : ascii -> bool) (s : string) :
  allChars keep (keepChars keep s) = true.
Proof.
  induction s as [|c s IH]; [reflexivity|]. cbn [keepChars].
  destruct (keep c) eqn:E; [|exact IH]. cbn [allChars]. now rewrite E, IH.
Qed.


(** ** The buckets of the second listing *)

Module BasicPick.
Import Basic.

Lemma scanBuckets_inv W minSubs (names : list string) :
  forall q u,
    Forall (qualifies W minSubs) q -> Forall (unknownSafe W) u ->
    Forall (qualifies W minSubs) (scanBuckets W minSubs names q u).1 /\
    Forall (unknownSafe W) (scanBuckets W minSubs names q u).2.
Proof.
  induction names as [|sub rest IH]; intros q u Hq Hu; cbn [scanBuckets]; [now split|].
  unfold safeSubInfo.
  destruct (getSubredditInfoByName W sub) as [info|] eqn:Hi; [|now apply IH].
  destruct (isNsfwSub info) eqn:Hn; [now apply IH|].
  destruct (0 <? getSubscriberCount info) eqn:Hpos.
  - apply Z.ltb_lt in Hpos.
    destruct (minSubs <=? getSubscriberCount info) eqn:Hmin.
    + apply Z.leb_le in Hmin.
      assert (Hq' : Forall (qualifies W minSubs) (q ++ [(sub, getSubscriberCount info)])%list).
      { apply Forall_app. split; [exact Hq|]. constructor; [|constructor].
        exists info. cbn. repeat split; assumption. }
      destruct (12 <=? len _); [now split | now apply IH].
    + destruct (12 <=? len q); [now split | now apply IH].
  - apply Z.ltb_ge in Hpos.
    assert (Hu' : Forall (unknownSafe W) (u ++ [sub])%list).
    { apply Forall_app. split; [exact Hu|]. constructor; [|constructor].
      exists info. repeat split; assumption. }
    destruct (12 <=? len q); [now split | now apply IH].
Qed.

Lemma bucketsOf_inv W posts dk m :
  Forall (qualifies W (minSubsForMode m)) (bucketsOf W posts dk m).1 /\
  Forall (unknownSafe W) (bucketsOf W posts dk m).2.
Proof. unfold bucketsOf. apply scanBuckets_inv; constructor. Qed.

Lemma insertDesc_elem x y l : y ∈ insertDesc x l -> y = x \/ y ∈ l.
Proof.
  induction l as [|z l IH]; cbn [insertDesc].
  - intros H. apply list_elem_of_singleton in H. now left.
  - destruct (x.2 <? z.2).
    + intros H. apply elem_of_cons in H as [->|H]; [right; constructor|].
      destruct (IH H) as [->|Hin]; [now left | right; now constructor].
    + intros H. apply elem_of_cons in H as [->|H]; [now left | now right].
Qed.

Lemma sortDesc_elem y l : y ∈ sortDesc l -> y ∈ l.
Proof.
  unfold sortDesc. induction l as [|x l IH]; cbn [foldr]; [tauto|].
  intros H. apply insertDesc_elem in H as [->|H]; [constructor | constructor; now apply IH].
Qed.

(** Where the community of the easy or the medium tier comes from. *)
Lemma pick_source W dk m posts sub :
  m <> hard ->
  listPosts W "all" 150 = Ok posts ->
  pickSubredditForMode W dk m = Ok sub ->
  let q := (bucketsOf W posts dk m).1 in
  let u := (bucketsOf W posts dk m).2 in
  (q <> [] -> exists n, (sub, n) ∈ q) /\
  (q = [] -> u <> [] -> sub ∈ u) /\
  (q = [] -> u = [] -> sub ∈ subsToScanOf posts dk m \/ sub = "all").
Proof.
  intros Hm Hposts. unfold pickSubredditForMode. rewrite Hposts. cbn [mbind result_bind].
  destruct (len (uniqueSubsOf posts) =? 0) eqn:Hz.
  - intros [= <-]. cbv zeta.
    assert (Hscan : subsToScanOf posts dk m = []).
    { apply len_zero in Hz. unfold subsToScanOf. rewrite Hz. reflexivity. }
    unfold bucketsOf. rewrite Hscan. cbn. repeat split; try congruence. intros _ _. now right.
  - cbv zeta. destruct (bucketsOf W posts dk m) as [q u] eqn:Hb. cbn [fst snd].
    assert (Hgo :
      (if 0 <? len q
       then c ← at_ (match m with easy => take 12 (sortDesc q) | _ => q end)
                  (pickIndex (len (match m with easy => take 12 (sortDesc q) | _ => q end))
                     (seedFromString (dk ++ ":" ++ modeName m ++ ":pickQualified")));
            Ok c.1
       else if 0 <? len u
            then at_ u (pickIndex (len u)
                          (seedFromString (dk ++ ":" ++ modeName m ++ ":pickUnknown")))
            else at_ (subsToScanOf posts dk m)
                   (pickIndex (len (subsToScanOf posts dk m))
                      (seedFromString (dk ++ ":" ++ modeName m ++ ":scan")))) = Ok sub ->
      (q <> [] -> exists n, (sub, n) ∈ q) /\
      (q = [] -> u <> [] -> sub ∈ u) /\
      (q = [] -> u = [] -> sub ∈ subsToScanOf posts dk m \/ sub = "all")).
    { destruct q as [|x q'].
      - cbn [len length Z.of_nat Z.ltb Z.compare].
        destruct u as [|y u'].
        + cbn [len length Z.of_nat Z.ltb Z.compare]. intros H. apply at_elem in H.
          repeat split; try congruence. intros _ _. now left.
        + replace (0 <? len (y :: u')) with true by reflexivity.
          intros H. apply at_elem in H. repeat split; congruence.
      - replace (0 <? len (x :: q')) with true by reflexivity.
        destruct (at_ _ _) as [c|e] eqn:Hat; cbn [mbind result_bind]; [|discriminate].
        intros [= <-]. apply at_elem in Hat.
        assert (Hc : c ∈ x :: q').
        { destruct m; [| exact Hat | exact Hat].
          apply subseteq_take in Hat. now apply sortDesc_elem in Hat. }
        repeat split; try congruence. intros _. exists c.2. now destruct c. }
    destruct m; [exact Hgo | exact Hgo | contradiction].
Qed.

End BasicPick.




(** The scan of the first listing is lenient, as its comment says: a
    community whose metadata holds no subscriber count passes the gate of
    the easy tier and is returned at once. *)
Lemma first_listing_accepts_unknown_count :
  Rich.pickSubredditForMode Demo.worldWithoutCounts "2024-01-03" easy = Ok "funny" /\
  countKnown Demo.worldWithoutCounts "funny" = false.
Proof. vm_compute. split; reflexivity. Qed.

(** C5, as the code has it (thresholds of the tiers). When the scan of a
    tier found a qualifying candidate, the selected community has a known
    subscriber count of at least the threshold of that tier: 1,000,000 for
    easy and 10,000 for medium; the thresholds fall from easy to medium to
    hard. The counts of the communities two tiers select are not ordered
    by this. *)
Theorem selected_reaches_threshold (W : Reddit) (dk : string) (m : GameMode)
    (posts : list Post) (sub : string) :
  m <> hard ->
  listPosts W "all" 150 = Ok posts ->
  Basic.pickSubredditForMode W dk m = Ok sub ->
  (Basic.bucketsOf W posts dk m).1 <> [] ->
  (exists info,
     getSubredditInfoByName W sub = Some info /\
     0 < getSubscriberCount info /\
     minSubsForMode m <= getSubscriberCount info) /\
  minSubsForMode easy = 1000000 /\ minSubsForMode medium = 10000 /\
  minSubsForMode hard <= minSubsForMode medium <= minSubsForMode easy.
Proof.
  intros Hm Hposts Hpick Hne.
  destruct (BasicPick.bucketsOf_inv W posts dk m) as [Hq _].
  destruct (BasicPick.pick_source W dk m posts sub Hm Hposts Hpick) as (Hfromq & _ & _).
  destruct (Hfromq Hne) as [n Hn].
  rewrite Forall_forall in Hq. destruct (Hq _ Hn) as (info & Hi & _ & Hcount & Hpos & Hmin).
  cbn [fst snd] in *. subst n.
  split; [now exists info|]. cbn. repeat split; lia.
Qed.

(** C5, as the specification states it, fails: on 2024-01-03, with funny
    (50,000,000 subscribers) and aww (2,000,000) in the feed, both known
    and both qualifying for both tiers, the easy tier selects aww and the
    medium tier selects funny. *)
Lemma easy_selects_the_smaller_community :
  Basic.pickSubredditForMode Demo.world "2024-01-03" easy = Ok "aww" /\
  Basic.pickSubredditForMode Demo.world "2024-01-03" medium = Ok "funny" /\
  getSubscriberCount <$> getSubredditInfoByName Demo.world "aww" = Some 2000000 /\
  getSubscriberCount <$> getSubredditInfoByName Demo.world "funny" = Some 50000000 /\
  countKnown Demo.world "aww" = true /\ countKnown Demo.world "funny" = true /\
  ~ (2000000 >= 50000000).
Proof.
  vm_compute. repeat split. intros H. now apply H.
Qed.

(** ** The theorems at work on the small content source *)





(** On 2024-01-03 the community of the easy tier has 2,000,000 subscribers. *)
Lemma threshold_witness :
  easy <> hard /\
  listPosts Demo.world "all" 150 = Ok Demo.feed /\
  Basic.pickSubredditForMode Demo.world "2024-01-03" easy = Ok "aww" /\
  (Basic.bucketsOf Demo.world Demo.feed "2024-01-03" easy).1 <> [] /\
  (exists info,
     getSubredditInfoByName Demo.world "aww" = Some info /\
     0 < getSubscriberCount info /\
     minSubsForMode easy <= getSubscriberCount info) /\
  minSubsForMode easy = 1000000 /\ minSubsForMode medium = 10000 /\
  minSubsForMode hard <= minSubsForMode medium <= minSubsForMode easy.
Proof.
  assert (h1 : easy <> hard) by discriminate.
  assert (h2 : listPosts Demo.world "all" 150 = Ok Demo.feed) by reflexivity.
  assert (h3 : Basic.pickSubredditForMode Demo.world "2024-01-03" easy = Ok "aww")
    by (vm_compute; reflexivity).
  assert (h4 : (Basic.bucketsOf Demo.world Demo.feed "2024-01-03" easy).1 <> [])
    by (vm_compute; discriminate).
  exact (conj h1 (conj h2 (conj h3 (conj h4
    (selected_reaches_threshold Demo.world "2024-01-03" easy Demo.feed "aww" h1 h2 h3 h4))))).
Defined.

(** Two builds from the empty store and three from another store agree. *)
Lemma determinism_witness :
  cachedText (∅ : gmap string string) "2024-01-10" easy = None /\
  cachedText Demo.doneStore "2024-01-10" easy = None /\
  (forall s1 s2,
     s1 ∈ traceOf (fun _ : unit => Rich.buildDailyPuzzle Demo.world "2024-01-10" easy)
            (replicate 2 tt) ∅ ->
     s2 ∈ traceOf (fun _ : unit => Rich.buildDailyPuzzle Demo.world "2024-01-10" easy)
            (replicate 3 tt) Demo.doneStore ->
     s1.2 = s2.2).
Proof.
  assert (h1 : cachedText (∅ : gmap string string) "2024-01-10" easy = None) by reflexivity.
  assert (h2 : cachedText Demo.doneStore "2024-01-10" easy = None) by (vm_compute; reflexivity).
  exact (conj h1 (conj h2 (fun s1 s2 =>
    proj1 (proj2 (build_is_deterministic Demo.world "2024-01-10" easy))
      ∅ Demo.doneStore 2%nat 3%nat s1 s2 h1 h2))).
Defined.



(** A state request on 2024-01-10 for a player with a streak. *)
Lemma state_witness :
  let after := (Rich.getState Demo.world Demo.jan10 Demo.stateQuery
                  (Demo.storeWithStreak "2024-01-09")).1 in
  after !! kCommit "t2_u" easy "2024-01-10"
    = Demo.storeWithStreak "2024-01-09" !! kCommit "t2_u" easy "2024-01-10" /\
  after !! kCompleted "t2_u" easy "2024-01-10"
    = Demo.storeWithStreak "2024-01-09" !! kCompleted "t2_u" easy "2024-01-10" /\
  after !! kPlayed "t2_u" easy "2024-01-10"
    = Demo.storeWithStreak "2024-01-09" !! kPlayed "t2_u" easy "2024-01-10" /\
  after !! kScore "t2_u" easy = Demo.storeWithStreak "2024-01-09" !! kScore "t2_u" easy /\
  after !! kStreak "t2_u" easy = Demo.storeWithStreak "2024-01-09" !! kStreak "t2_u" easy /\
  after !! kLastDate "t2_u" easy = Demo.storeWithStreak "2024-01-09" !! kLastDate "t2_u" easy /\
  RichRun.phaseOf after "t2_u" easy "2024-01-10"
    = RichRun.phaseOf (Demo.storeWithStreak "2024-01-09") "t2_u" easy "2024-01-10" /\
  forall k, k <> kPuzzle (Rich.resolveDateKey Demo.jan10 (b_dateKey Demo.stateQuery))
                         (normalizeMode (b_mode Demo.stateQuery)) ->
            after !! k = Demo.storeWithStreak "2024-01-09" !! k.
Proof.
  exact (state_request_is_read_only Demo.world Demo.jan10 Demo.stateQuery
           (Demo.storeWithStreak "2024-01-09") "t2_u" easy "2024-01-10").
Defined.


(** * Further properties of the code *)

(** ** The sampler *)

(** A seed is an unsigned 32-bit number, an index taken for a positive
    length lies below it, and reading an array that is not empty at such
    an index never finds [undefined]. *)
Theorem seed_and_index_in_bounds :
  (forall s, 0 <= seedFromString s < 4294967296) /\
  (forall n seed, 0 < n -> 0 <= pickIndex n seed < n) /\
  (forall (l : list string) seed,
     l <> [] -> exists a, at_ l (pickIndex (len l) seed) = Ok a /\ a ∈ l).
Proof.
  split; [|split].
  - intros s. unfold seedFromString, toUint32. apply Z.mod_pos_bound. lia.
  - intros n seed Hn. now apply pickIndex_range.
  - intros l seed Hne. now apply at_pick.
Qed.

(** ** The shuffle of the second listing *)

Lemma swap_Permutation {A} (a : list A) (i j : nat) : Basic.swap a i j ≡ₚ a.
Proof.
  unfold Basic.swap.
  destruct (a !! i) as [x|] eqn:Hi; [|reflexivity].
  destruct (a !! j) as [y|] eqn:Hj; [|reflexivity].
  destruct (decide (i = j)) as [->|Hne].
  - assert (x = y) by congruence. subst y.
    rewrite list_insert_insert_eq. now rewrite list_insert_id.
  - set (b := <[i:=y]> a).
    assert (Hbi : b !! i = Some y).
    { unfold b. apply list_lookup_insert_eq. now apply lookup_lt_Some in Hi. }
    assert (Hbj : b !! j = Some y).
    { unfold b. rewrite list_lookup_insert_ne by exact Hne. exact Hj. }
    assert (Hcj : <[j:=x]> b !! j = Some x).
    { apply list_lookup_insert_eq. now apply lookup_lt_Some in Hbj. }
    assert (Hdel_i : delete i b = delete i a).
    { unfold b. rewrite !delete_take_drop.
      rewrite take_insert_ge by lia. rewrite drop_insert_lt by lia. reflexivity. }
    assert (Hdel_j : delete j (<[j:=x]> b) = delete j b).
    { rewrite !delete_take_drop.
      rewrite take_insert_ge by lia. rewrite drop_insert_lt by lia. reflexivity. }
    pose proof (delete_Permutation a i x Hi) as Pa.
    pose proof (delete_Permutation b i y Hbi) as Pbi.
    pose proof (delete_Permutation b j y Hbj) as Pbj.
    pose proof (delete_Permutation _ j x Hcj) as Pc.
    rewrite Hdel_i in Pbi. rewrite Hdel_j in Pc.
    assert (Hd : delete i a ≡ₚ delete j b).
    { apply (Permutation_cons_inv (a := y)). now rewrite <- Pbi, <- Pbj. }
    now rewrite Pc, <- Hd, <- Pa.
Qed.

Lemma shuffleLoop_Permutation {A} (i : nat) :
  forall (x : Z) (a : list A), Basic.shuffleLoop i x a ≡ₚ a.
Proof.
  induction i as [|i IH]; intros x a; cbn [Basic.shuffleLoop]; [reflexivity|].
  rewrite IH. apply swap_Permutation.
Qed.

(** The shuffle reorders: it returns the elements of the array, each as
    often as the array holds it, so no community is lost or repeated. *)
Theorem shuffle_is_a_permutation (arr : list string) (seed : Z) :
  Basic.shuffleDeterministic arr seed ≡ₚ arr /\
  length (Basic.shuffleDeterministic arr seed) = length arr /\
  (forall x, x ∈ Basic.shuffleDeterministic arr seed <-> x ∈ arr) /\
  (NoDup arr -> NoDup (Basic.shuffleDeterministic arr seed)).
Proof.
  assert (P : Basic.shuffleDeterministic arr seed ≡ₚ arr)
    by (unfold Basic.shuffleDeterministic; apply shuffleLoop_Permutation).
  split; [exact P|]. split; [now rewrite P|]. split; [intros x; now rewrite P|].
  intros Hnd. now rewrite P.
Qed.

(** ** The communities scanned by the second listing *)

Lemma uniq_spec (xs : list string) :
  forall seen : gset string,
    NoDup (Basic.uniq xs seen) /\
    (forall x, x ∈ Basic.uniq xs seen <-> x ∈ xs /\ x ∉ seen) /\
    Basic.uniq xs seen `sublist_of` xs.
Proof.
  induction xs as [|a xs IH]; intros seen; cbn [Basic.uniq].
  - split; [constructor|]. split; [|constructor].
    intros x. split; [intros H; inversion H | intros [H _]; inversion H].
  - destruct (decide (a ∈ seen)) as [Hin|Hnin].
    + destruct (IH seen) as (Hnd & Hel & Hsub).
      split; [exact Hnd|]. split; [|now constructor].
      intros x. rewrite Hel, elem_of_cons. split; [tauto|].
      intros [[->|Hx] Hs]; [contradiction | tauto].
    + destruct (IH ({[a]} ∪ seen)) as (Hnd & Hel & Hsub).
      split; [|split; [|now constructor]].
      * constructor; [|exact Hnd]. rewrite Hel. intros [_ H]. apply H.
        apply elem_of_union. left. now apply elem_of_singleton.
      * intros x. rewrite !elem_of_cons, Hel.
        split.
        -- intros [->|[Hx Hs]]; [tauto | split; [tauto|]].
           intros H. apply Hs. apply elem_of_union. now right.
        -- intros [[->|Hx] Hs]; [tauto|].
           destruct (decide (x = a)) as [->|Hne]; [tauto|].
           right. split; [exact Hx|]. intros H.
           apply elem_of_union in H as [H|H]; [|contradiction].
           apply elem_of_singleton in H. contradiction.
Qed.

Lemma uniqueSubsOf_spec (posts : list Post) :
  NoDup (Basic.uniqueSubsOf posts) /\
  (forall x, x ∈ Basic.uniqueSubsOf posts <->
             exists p, p ∈ posts /\ truthyName (getPostSubredditName p) = Some x) /\
  Basic.uniqueSubsOf posts
    `sublist_of` omap (fun p => truthyName (getPostSubredditName p)) posts /\
  (forall x, x ∈ Basic.uniqueSubsOf posts -> x <> "").
Proof.
  unfold Basic.uniqueSubsOf.
  destruct (uniq_spec (omap (fun p => truthyName (getPostSubredditName p)) posts) ∅)
    as (Hnd & Hel & Hsub).
  assert (Hiff : forall x,
    x ∈ Basic.uniq (omap (fun p => truthyName (getPostSubredditName p)) posts) ∅ <->
    exists p, p ∈ posts /\ truthyName (getPostSubredditName p) = Some x).
  { intros x. rewrite Hel, list_elem_of_omap. split.
    - intros [[p Hp] _]. now exists p.
    - intros [p Hp]. split; [now exists p | apply not_elem_of_empty]. }
  split; [exact Hnd|]. split; [exact Hiff|]. split; [exact Hsub|].
  intros x Hx. apply Hiff in Hx as (p & _ & Hp).
  eapply truthyName_nonempty. exact Hp.
Qed.


(** ** The buckets of the easy and medium tiers *)

Lemma insertDesc_Permutation x l : Basic.insertDesc x l ≡ₚ x :: l.
Proof.
  induction l as [|y l IH]; cbn [Basic.insertDesc]; [reflexivity|].
  destruct (x.2 <? y.2); [|reflexivity].
  rewrite IH. apply Permutation_swap.
Qed.

Lemma sortDesc_Permutation l : Basic.sortDesc l ≡ₚ l.
Proof.
  induction l as [|x l IH]; [reflexivity|].
  change (Basic.sortDesc (x :: l)) with (Basic.insertDesc x (Basic.sortDesc l)).
  now rewrite insertDesc_Permutation, IH.
Qed.

Lemma insertDesc_sorted x l :
  StronglySorted (fun a b : string * Z => b.2 <= a.2) l ->
  StronglySorted (fun a b : string * Z => b.2 <= a.2) (Basic.insertDesc x l).
Proof.
  induction 1 as [|y l Hs IH Hall]; cbn [Basic.insertDesc].
  - repeat constructor.
  - destruct (Z.ltb_spec (x.2) (y.2)) as [Hlt|Hge].
    + constructor; [exact IH|].
      rewrite insertDesc_Permutation. constructor; [lia | exact Hall].
    + constructor; [now constructor|].
      constructor; [exact Hge|].
      eapply Forall_impl; [exact Hall|]. cbn. intros z Hz. lia.
Qed.

Lemma insertDesc_stable (c : Z) x l :
  filter (fun y : string * Z => y.2 = c) (Basic.insertDesc x l) =
  filter (fun y : string * Z => y.2 = c) (x :: l).
Proof.
  induction l as [|y l IH]; cbn [Basic.insertDesc]; [reflexivity|].
  destruct (Z.ltb_spec (x.2) (y.2)) as [Hlt|Hge]; [|reflexivity].
  rewrite (filter_cons _ y), IH, !filter_cons.
  destruct (decide (y.2 = c)) as [Hy|Hy]; [|reflexivity].
  destruct (decide (x.2 = c)) as [Hx|Hx]; [lia | reflexivity].
Qed.

(** The sort by subscriber count keeps every entry, puts larger counts
    first, and leaves entries of equal count in their scan order. *)
Theorem sort_by_count_is_stable (l : list (string * Z)) :
  Basic.sortDesc l ≡ₚ l /\
  StronglySorted (fun a b : string * Z => b.2 <= a.2) (Basic.sortDesc l) /\
  (forall c : Z,
     filter (fun y : string * Z => y.2 = c) (Basic.sortDesc l) =
     filter (fun y : string * Z => y.2 = c) l).
Proof.
  split; [apply sortDesc_Permutation|]. split.
  - induction l as [|x l IH]; [constructor|].
    change (Basic.sortDesc (x :: l)) with (Basic.insertDesc x (Basic.sortDesc l)).
    now apply insertDesc_sorted.
  - intros c. induction l as [|x l IH]; [reflexivity|].
    change (Basic.sortDesc (x :: l)) with (Basic.insertDesc x (Basic.sortDesc l)).
    rewrite insertDesc_stable, !filter_cons, IH. reflexivity.
Qed.

Lemma scanBuckets_length W minSubs (names : list string) :
  forall q u,
    (length q < 12)%nat ->
    (length (Basic.scanBuckets W minSubs names q u).1 <= 12)%nat.
Proof.
  induction names as [|sub rest IH]; intros q u Hq; cbn [Basic.scanBuckets].
  - cbn. lia.
  - destruct (Basic.safeSubInfo W sub) as [info|]; [|now apply IH].
    destruct (isNsfwSub info); [now apply IH|].
    destruct (0 <? getSubscriberCount info).
    + destruct (minSubs <=? getSubscriberCount info).
      * destruct (Z.leb_spec 12 (len (q ++ [(sub, getSubscriberCount info)])%list)) as [H|H].
        -- cbn. rewrite length_app. cbn. lia.
        -- apply IH. unfold len in H. lia.
      * destruct (Z.leb_spec 12 (len q)) as [H|H]; [cbn; lia | now apply IH].
    + destruct (Z.leb_spec 12 (len q)) as [H|H]; [cbn; lia | now apply IH].
Qed.

Lemma bucketsOf_length W posts dk m :
  (length (Basic.bucketsOf W posts dk m).1 <= 12)%nat.
Proof. unfold Basic.bucketsOf. apply scanBuckets_length. cbn. lia. Qed.

Lemma easy_bucket_all W posts dk m :
  take 12 (Basic.sortDesc (Basic.bucketsOf W posts dk m).1)
    = Basic.sortDesc (Basic.bucketsOf W posts dk m).1.
Proof. apply take_ge. rewrite sortDesc_Permutation. apply bucketsOf_length. Qed.

(** The scan stops at twelve qualifying communities, so the cut of the
    easy tier to the twelve largest drops none of them: the easy tier
    draws from all qualifying communities it found, as the medium tier
    does. *)
Theorem easy_cut_drops_nothing W posts dk m :
  (length (Basic.bucketsOf W posts dk m).1 <= 12)%nat /\
  take 12 (Basic.sortDesc (Basic.bucketsOf W posts dk m).1)
    = Basic.sortDesc (Basic.bucketsOf W posts dk m).1 /\
  take 12 (Basic.sortDesc (Basic.bucketsOf W posts dk m).1)
    ≡ₚ (Basic.bucketsOf W posts dk m).1.
Proof.
  split; [apply bucketsOf_length|]. split; [apply easy_bucket_all|].
  rewrite easy_bucket_all. apply sortDesc_Permutation.
Qed.

(** ** The selection of the second listing as a whole *)

Lemma scanBuckets_names W minSubs (names : list string) :
  forall q u,
    (forall x, x ∈ (Basic.scanBuckets W minSubs names q u).1 -> x ∈ q \/ x.1 ∈ names) /\
    (forall s, s ∈ (Basic.scanBuckets W minSubs names q u).2 -> s ∈ u \/ s ∈ names).
Proof.
  induction names as [|sub rest IH]; intros q u; cbn [Basic.scanBuckets].
  - split; intros x Hx; now left.
  - assert (Hskip :
      (forall x, x ∈ (Basic.scanBuckets W minSubs rest q u).1 -> x ∈ q \/ x.1 ∈ sub :: rest) /\
      (forall s, s ∈ (Basic.scanBuckets W minSubs rest q u).2 -> s ∈ u \/ s ∈ sub :: rest)).
    { destruct (IH q u) as [H1 H2]. split; intros x Hx.
      - destruct (H1 x Hx); [now left | right; now constructor].
      - destruct (H2 x Hx); [now left | right; now constructor]. }
    assert (Hstop :
      (forall x : string * Z, x ∈ q -> x ∈ q \/ x.1 ∈ sub :: rest) /\
      (forall s, s ∈ u -> s ∈ u \/ s ∈ sub :: rest)) by (split; intros; now left).
    destruct (Basic.safeSubInfo W sub) as [info|]; [|exact Hskip].
    destruct (isNsfwSub info); [exact Hskip|].
    destruct (0 <? getSubscriberCount info).
    + destruct (minSubs <=? getSubscriberCount info).
      * assert (Hq : forall x, x ∈ (q ++ [(sub, getSubscriberCount info)])%list ->
                               x ∈ q \/ x.1 ∈ sub :: rest).
        { intros x Hx. apply elem_of_app in Hx as [Hx|Hx]; [now left|].
          apply list_elem_of_singleton in Hx. subst x. right. constructor. }
        destruct (12 <=? len _).
        -- split; [exact Hq | now left].
        -- destruct (IH (q ++ [(sub, getSubscriberCount info)])%list u) as [H1 H2].
           split; intros x Hx.
           ++ destruct (H1 x Hx) as [H|H]; [now apply Hq | right; now constructor].
           ++ destruct (H2 x Hx); [now left | right; now constructor].
      * destruct (12 <=? len q); [exact Hstop | exact Hskip].
    + assert (Hu : forall s, s ∈ (u ++ [sub])%list -> s ∈ u \/ s ∈ sub :: rest).
      { intros s Hs. apply elem_of_app in Hs as [Hs|Hs]; [now left|].
        apply list_elem_of_singleton in Hs. subst s. right. constructor. }
      destruct (12 <=? len q).
      * split; [now left | exact Hu].
      * destruct (IH q (u ++ [sub])%list) as [H1 H2]. split; intros x Hx.
        -- destruct (H1 x Hx); [now left | right; now constructor].
        -- destruct (H2 x Hx) as [H|H]; [now apply Hu | right; now constructor].
Qed.

Lemma scanHard_elem W subs sub : Basic.scanHard W subs = Some sub -> sub ∈ subs.
Proof.
  induction subs as [|s rest IH]; cbn [Basic.scanHard]; [discriminate|].
  destruct (Basic.safeSubInfo W s) as [info|].
  - destruct (isNsfwSub info).
    + intros H. right. now apply IH.
    + intros [= <-]. left.
  - intros H. right. now apply IH.
Qed.

Lemma subsToScanOf_length posts dk m :
  length (Basic.subsToScanOf posts dk m) = length (Basic.uniqueSubsOf posts).
Proof.
  unfold Basic.subsToScanOf, Basic.shuffleDeterministic.
  now rewrite shuffleLoop_Permutation.
Qed.

Lemma basic_pick_spec W dk m :
  (forall posts, listPosts W "all" 150 = Ok posts ->
     exists sub, Basic.pickSubredditForMode W dk m = Ok sub /\
       ((sub = "all" /\ Basic.uniqueSubsOf posts = []) \/
        (exists p, p ∈ posts /\ truthyName (getPostSubredditName p) = Some sub))) /\
  (forall e, listPosts W "all" 150 = Throw e ->
     Basic.pickSubredditForMode W dk m = Throw Rejected).
Proof.
  split.
  2:{ intros e He. unfold Basic.pickSubredditForMode.
      unfold listPosts in *.
      destruct (getNewPosts W "all" 150); [discriminate|].
      destruct (getHotPosts W "all" 150); [discriminate|]. reflexivity. }
  intros posts Hposts. unfold Basic.pickSubredditForMode. rewrite Hposts.
  cbn [mbind result_bind].
  destruct (len (Basic.uniqueSubsOf posts) =? 0) eqn:Hz.
  { exists "all". split; [reflexivity|]. left. split; [reflexivity | now apply len_zero]. }
  cbv zeta.
  cut (exists sub,
    match m with
    | hard =>
        match Basic.scanHard W (take 40 (Basic.subsToScanOf posts dk m)) with
        | Some sub => Ok sub
        | None =>
            at_ (Basic.subsToScanOf posts dk m)
              (pickIndex (len (Basic.subsToScanOf posts dk m))
                 (seedFromString (dk ++ ":" ++ modeName m ++ ":scan")))
        end
    | _ =>
        let '(qualifying, unknownButSafe) := Basic.bucketsOf W posts dk m in
        if 0 <? len qualifying
        then c ← at_ (match m with
                      | easy => take 12 (Basic.sortDesc qualifying)
                      | _ => qualifying end)
                   (pickIndex
                      (len (match m with
                            | easy => take 12 (Basic.sortDesc qualifying)
                            | _ => qualifying end))
                      (seedFromString (dk ++ ":" ++ modeName m ++ ":pickQualified")));
             Ok c.1
        else if 0 <? len unknownButSafe
             then at_ unknownButSafe
                    (pickIndex (len unknownButSafe)
                       (seedFromString (dk ++ ":" ++ modeName m ++ ":pickUnknown")))
             else at_ (Basic.subsToScanOf posts dk m)
                    (pickIndex (len (Basic.subsToScanOf posts dk m))
                       (seedFromString (dk ++ ":" ++ modeName m ++ ":scan")))
    end = Ok sub /\
    exists p, p ∈ posts /\ truthyName (getPostSubredditName p) = Some sub).
  { intros (sub & H1 & H2). exists sub. split; [exact H1 | now right]. }
  destruct (uniqueSubsOf_spec posts) as (_ & Hfeed & _ & _).
  assert (Hperm : Basic.subsToScanOf posts dk m ≡ₚ Basic.uniqueSubsOf posts)
    by (unfold Basic.subsToScanOf, Basic.shuffleDeterministic; apply shuffleLoop_Permutation).
  assert (Hin : forall s, s ∈ Basic.subsToScanOf posts dk m ->
            exists p, p ∈ posts /\ truthyName (getPostSubredditName p) = Some s).
  { intros s Hs. apply Hfeed. now rewrite <- Hperm. }
  assert (Hne : Basic.subsToScanOf posts dk m <> []).
  { intros E. apply (f_equal length) in E. rewrite subsToScanOf_length in E.
    destruct (Basic.uniqueSubsOf posts); [discriminate Hz | discriminate E]. }
  assert (Hlast : exists sub,
    at_ (Basic.subsToScanOf posts dk m)
      (pickIndex (len (Basic.subsToScanOf posts dk m))
         (seedFromString (dk ++ ":" ++ modeName m ++ ":scan"))) = Ok sub /\
    exists p, p ∈ posts /\ truthyName (getPostSubredditName p) = Some sub).
  { destruct (at_pick _ (seedFromString (dk ++ ":" ++ modeName m ++ ":scan")) Hne)
      as (a & Ha & Hel). exists a. split; [exact Ha | now apply Hin]. }
  assert (Hbuckets : exists sub,
    (let '(qualifying, unknownButSafe) := Basic.bucketsOf W posts dk m in
     if 0 <? len qualifying
     then c ← at_ (match m with easy => take 12 (Basic.sortDesc qualifying) | _ => qualifying end)
                (pickIndex
                   (len (match m with
                         | easy => take 12 (Basic.sortDesc qualifying)
                         | _ => qualifying end))
                   (seedFromString (dk ++ ":" ++ modeName m ++ ":pickQualified")));
          Ok c.1
     else if 0 <? len unknownButSafe
          then at_ unknownButSafe
                 (pickIndex (len unknownButSafe)
                    (seedFromString (dk ++ ":" ++ modeName m ++ ":pickUnknown")))
          else at_ (Basic.subsToScanOf posts dk m)
                 (pickIndex (len (Basic.subsToScanOf posts dk m))
                    (seedFromString (dk ++ ":" ++ modeName m ++ ":scan")))) = Ok sub /\
    exists p, p ∈ posts /\ truthyName (getPostSubredditName p) = Some sub).
  { pose proof (scanBuckets_names W (minSubsForMode m)
                  (take 60 (Basic.subsToScanOf posts dk m)) [] []) as [Hq Hu].
    fold (Basic.bucketsOf W posts dk m) in Hq, Hu.
    pose proof (easy_bucket_all W posts dk m) as Hcut.
    destruct (Basic.bucketsOf W posts dk m) as [q u]. cbn [fst snd] in *.
    destruct q as [|x q'].
    - cbn [len length Z.of_nat Z.ltb Z.compare].
      destruct u as [|y u']; [exact Hlast|].
      replace (0 <? len (y :: u')) with true by reflexivity.
      destruct (at_pick (y :: u')
                  (seedFromString (dk ++ ":" ++ modeName m ++ ":pickUnknown")))
        as (a & Ha & Hel); [discriminate|].
      exists a. split; [exact Ha|]. apply Hin.
      destruct (Hu a Hel) as [H|H]; [inversion H | now apply subseteq_take in H].
    - replace (0 <? len (x :: q')) with true by reflexivity.
      set (bucket := match m with easy => take 12 (Basic.sortDesc (x :: q')) | _ => x :: q' end).
      assert (Hb : bucket ≡ₚ x :: q').
      { unfold bucket. destruct m; [|reflexivity|reflexivity].
        rewrite Hcut. apply sortDesc_Permutation. }
      assert (Hbne : bucket <> []).
      { intros E. rewrite E in Hb. now apply Permutation_nil_cons in Hb. }
      destruct (at_pick bucket
                  (seedFromString (dk ++ ":" ++ modeName m ++ ":pickQualified")) Hbne)
        as (c & Hc & Hel).
      exists c.1. rewrite Hc. split; [reflexivity|]. apply Hin.
      rewrite Hb in Hel.
      destruct (Hq c Hel) as [H|H]; [inversion H | now apply subseteq_take in H]. }
  destruct m; [exact Hbuckets | exact Hbuckets |].
  destruct (Basic.scanHard W (take 40 (Basic.subsToScanOf posts dk hard))) as [sub|] eqn:Hs.
  - exists sub. split; [reflexivity|]. apply Hin.
    apply scanHard_elem in Hs. now apply subseteq_take in Hs.
  - exact Hlast.
Qed.

(** When one of the two listings of the global feed is delivered, the
    selection of the second listing returns a community and never throws:
    [all] when no post of the feed names a community, and otherwise the
    name of a post of the feed. When both listings are refused the
    refusal is passed on. *)
Theorem second_selection_returns_a_feed_community W dk m :
  (forall posts, listPosts W "all" 150 = Ok posts ->
     exists sub, Basic.pickSubredditForMode W dk m = Ok sub /\
       ((sub = "all" /\ Basic.uniqueSubsOf posts = []) \/
        (exists p, p ∈ posts /\ truthyName (getPostSubredditName p) = Some sub))) /\
  (forall e, listPosts W "all" 150 = Throw e ->
     Basic.pickSubredditForMode W dk m = Throw Rejected).
Proof. exact (basic_pick_spec W dk m). Qed.

Lemma scanHard_filter W subs :
  Basic.scanHard W subs = head (List.filter (safeListed W) subs).
Proof.
  induction subs as [|s rest IH]; [reflexivity|].
  cbn [Basic.scanHard List.filter]. unfold safeListed at 1, Basic.safeSubInfo.
  destruct (getSubredditInfoByName W s) as [info|]; [|exact IH].
  destruct (isNsfwSub info); [exact IH | reflexivity].
Qed.

Lemma filter_first {A} (f : A -> bool) (pre : list A) (x : A) (rest : list A) :
  Forall (fun a => f a = false) pre -> f x = true ->
  head (List.filter f (pre ++ x :: rest)) = Some x.
Proof.
  induction 1 as [|a pre Ha _ IH]; intros Hx; cbn [app List.filter].
  - now rewrite Hx.
  - rewrite Ha. now apply IH.
Qed.

Lemma filter_none {A} (f : A -> bool) (l : list A) :
  head (List.filter f l) = None -> Forall (fun a => f a = false) l.
Proof.
  induction l as [|a l IH]; cbn [List.filter]; [constructor|].
  destruct (f a) eqn:E; [discriminate|]. intros H. constructor; [exact E | now apply IH].
Qed.

(** The hard tier returns the first of the forty communities at the head
    of the scan order that has metadata and is not adult, whatever its
    subscriber count. A community without metadata or an adult one is
    returned only when none of the forty passes. *)
Theorem hard_tier_takes_the_first_listed W dk posts :
  listPosts W "all" 150 = Ok posts ->
  Basic.uniqueSubsOf posts <> [] ->
  (forall pre sub rest,
     take 40 (Basic.subsToScanOf posts dk hard) = (pre ++ sub :: rest)%list ->
     Forall (fun s => safeListed W s = false) pre ->
     safeListed W sub = true ->
     Basic.pickSubredditForMode W dk hard = Ok sub) /\
  (forall sub,
     Basic.pickSubredditForMode W dk hard = Ok sub ->
     safeListed W sub = false ->
     Forall (fun s => safeListed W s = false) (take 40 (Basic.subsToScanOf posts dk hard))).
Proof.
  intros Hposts Hne.
  assert (Hz : (len (Basic.uniqueSubsOf posts) =? 0) = false).
  { destruct (len (Basic.uniqueSubsOf posts) =? 0) eqn:E; [|reflexivity].
    apply len_zero in E. contradiction. }
  unfold Basic.pickSubredditForMode. rewrite Hposts. cbn [mbind result_bind].
  rewrite Hz. cbv zeta. rewrite scanHard_filter. split.
  - intros pre sub rest Hscan Hpre Hsub. rewrite Hscan.
    now rewrite (filter_first _ pre sub rest Hpre Hsub).
  - intros sub.
    destruct (head (List.filter (safeListed W) (take 40 (Basic.subsToScanOf posts dk hard))))
      as [s|] eqn:Hh.
    + intros [= ->] Hsub. exfalso.
      assert (Hin : sub ∈ List.filter (safeListed W)
                            (take 40 (Basic.subsToScanOf posts dk hard))).
      { destruct (List.filter _ _); [discriminate|]. injection Hh as ->. left. }
      apply elem_of_filter_bool in Hin as [_ Hin]. congruence.
    + intros _ _. now apply filter_none.
Qed.

(** With the feed funny, aww, funny the scan order of 2024-01-03 starts
    with a listed community, which the hard tier returns. *)
Lemma hard_tier_witness :
  listPosts Demo.world "all" 150 = Ok Demo.feed /\
  Basic.uniqueSubsOf Demo.feed <> [] /\
  Basic.pickSubredditForMode Demo.world "2024-01-03" hard = Ok "aww".
Proof.
  assert (h1 : listPosts Demo.world "all" 150 = Ok Demo.feed) by reflexivity.
  assert (h2 : Basic.uniqueSubsOf Demo.feed <> []) by (vm_compute; discriminate).
  refine (conj h1 (conj h2 _)).
  apply (proj1 (hard_tier_takes_the_first_listed Demo.world "2024-01-03" Demo.feed h1 h2)
           [] "aww" ["funny"]).
  - vm_compute. reflexivity.
  - constructor.
  - vm_compute. reflexivity.
Defined.

(** ** The selection of the first listing *)

Lemma scanCandidates_total W minSubs (cands : list (Post * string)) baseSeed ixs :
  cands <> [] ->
  forall tried, exists found, Rich.scanCandidates W minSubs cands baseSeed ixs tried = Ok found.
Proof.
  intros Hne. induction ixs as [|i rest IH]; intros tried; cbn [Rich.scanCandidates].
  - now exists None.
  - destruct (at_pick cands
                (seedFromString (showZ baseSeed ++ ":" ++ showZ (Z.of_nat i))) Hne)
      as (c & Hc & _).
    rewrite Hc. cbn [mbind result_bind].
    destruct (decide (c.2 ∈ tried)); [apply IH|].
    destruct (getSubredditInfoByName W c.2) as [info|]; [|apply IH].
    destruct (isNsfwSub info); [apply IH|].
    destruct ((getSubscriberCount info =? 0) || (minSubs <=? getSubscriberCount info));
      [|apply IH].
    now exists (Some c.2).
Qed.

Lemma candidatesOf_elem posts (c : Post * string) :
  c ∈ Rich.candidatesOf posts ->
  c.1 ∈ posts /\ truthyName (getPostSubredditName c.1) = Some c.2.
Proof.
  unfold Rich.candidatesOf. rewrite list_elem_of_omap. intros (p & Hp & Hc).
  destruct (truthyName (getPostSubredditName p)) as [sub|] eqn:E; [|discriminate].
  injection Hc as <-. now split.
Qed.

Lemma rich_pick_spec W dk m :
  (forall posts, listPosts W "all" 120 = Ok posts ->
     exists sub, Rich.pickSubredditForMode W dk m = Ok sub /\
       ((sub = "all" /\ Rich.candidatesOf posts = []) \/
        (exists p, p ∈ posts /\ truthyName (getPostSubredditName p) = Some sub))) /\
  (forall e, listPosts W "all" 120 = Throw e ->
     Rich.pickSubredditForMode W dk m = Throw Rejected).
Proof.
  split.
  2:{ intros e He. unfold Rich.pickSubredditForMode, listPosts in *.
      destruct (getNewPosts W "all" 120); [discriminate|].
      destruct (getHotPosts W "all" 120); [discriminate|]. reflexivity. }
  intros posts Hposts. unfold Rich.pickSubredditForMode. rewrite Hposts.
  cbn [mbind result_bind]. cbv zeta.
  destruct (len (Rich.candidatesOf posts) =? 0) eqn:Hz.
  { exists "all". split; [reflexivity|]. left. split; [reflexivity | now apply len_zero]. }
  assert (Hne : Rich.candidatesOf posts <> []).
  { intros E. rewrite E in Hz. discriminate Hz. }
  destruct (scanCandidates_total W (minSubsForMode m) (Rich.candidatesOf posts)
              (seedFromString (dk ++ ":" ++ modeName m ++ ":subpick"))
              (seq 0 (Z.to_nat (Z.min 45 (len (Rich.candidatesOf posts))))) Hne ∅)
    as (found & Hfound).
  rewrite Hfound. cbn [mbind result_bind].
  destruct found as [sub|].
  - exists sub. split; [reflexivity|]. right.
    apply RichPick.scanCandidates_elem in Hfound as (c & Hc & <-).
    apply candidatesOf_elem in Hc as [H1 H2]. now exists c.1.
  - destruct (at_pick (Rich.candidatesOf posts)
                (seedFromString (dk ++ ":" ++ modeName m ++ ":subpick")) Hne)
      as (c & Hc & Hel).
    rewrite Hc. cbn [mbind result_bind]. exists c.2. split; [reflexivity|]. right.
    apply candidatesOf_elem in Hel as [H1 H2]. now exists c.1.
Qed.

(** When one of the two listings of the global feed is delivered, the
    selection of the first listing returns a community and never throws:
    [all] when no post of the feed names a community, and otherwise the
    name of a post of the feed. When both listings are refused the
    refusal is passed on. *)
Theorem first_selection_returns_a_feed_community W dk m :
  (forall posts, listPosts W "all" 120 = Ok posts ->
     exists sub, Rich.pickSubredditForMode W dk m = Ok sub /\
       ((sub = "all" /\ Rich.candidatesOf posts = []) \/
        (exists p, p ∈ posts /\ truthyName (getPostSubredditName p) = Some sub))) /\
  (forall e, listPosts W "all" 120 = Throw e ->
     Rich.pickSubredditForMode W dk m = Throw Rejected).
Proof. exact (rich_pick_spec W dk m). Qed.

(** A community the scan of the first listing returns has not been tried
    before, has metadata, is not adult, and its subscriber count is 0
    (unknown) or reaches the threshold. *)
Theorem first_scan_accepts_zero_or_threshold W minSubs cands baseSeed ixs :
  forall tried sub,
    Rich.scanCandidates W minSubs cands baseSeed ixs tried = Ok (Some sub) ->
    (sub ∉ tried) /\
    exists info,
      getSubredditInfoByName W sub = Some info /\ isNsfwSub info = false /\
      (getSubscriberCount info = 0 \/ minSubs <= getSubscriberCount info).
Proof.
  induction ixs as [|i rest IH]; intros tried sub; cbn [Rich.scanCandidates]; [discriminate|].
  destruct (at_ cands _) as [c|e]; cbn [mbind result_bind]; [|discriminate].
  destruct (decide (c.2 ∈ tried)) as [Hin|Hnin]; [apply IH|].
  assert (Hlater : Rich.scanCandidates W minSubs cands baseSeed rest ({[c.2]} ∪ tried)
                   = Ok (Some sub) ->
                   (sub ∉ tried) /\
                   exists info,
                     getSubredditInfoByName W sub = Some info /\ isNsfwSub info = false /\
                     (getSubscriberCount info = 0 \/ minSubs <= getSubscriberCount info)).
  { intros H. apply IH in H as [H1 H2]. split; [|exact H2].
    intros Hs. apply H1. apply elem_of_union. now right. }
  destruct (getSubredditInfoByName W c.2) as [info|] eqn:Hi; [|exact Hlater].
  destruct (isNsfwSub info) eqn:Hn; [exact Hlater|].
  destruct ((getSubscriberCount info =? 0) || (minSubs <=? getSubscriberCount info)) eqn:Hc;
    [|exact Hlater].
  intros [= <-]. split; [exact Hnin|]. exists info. split; [exact Hi|]. split; [exact Hn|].
  apply orb_true_iff in Hc as [Hc|Hc]; [left; now apply Z.eqb_eq | right; now apply Z.leb_le].
Qed.

(** The scan of 2024-01-03 in the easy tier when no community has a known
    count. *)
Lemma first_scan_witness :
  Rich.scanCandidates Demo.worldWithoutCounts (minSubsForMode easy)
    (Rich.candidatesOf Demo.feed) (seedFromString "2024-01-03:easy:subpick") (seq 0 3) ∅
  = Ok (Some "funny") /\
(("funny" ∉ (∅ : gset string)) /\
   exists info,
     getSubredditInfoByName Demo.worldWithoutCounts "funny" = Some info /\
     isNsfwSub info = false /\
     (getSubscriberCount info = 0 \/ minSubsForMode easy <= getSubscriberCount info)).
Proof.
  assert (h1 : Rich.scanCandidates Demo.worldWithoutCounts (minSubsForMode easy)
                 (Rich.candidatesOf Demo.feed) (seedFromString "2024-01-03:easy:subpick")
                 (seq 0 3) ∅ = Ok (Some "funny")) by (vm_compute; reflexivity).
  exact (conj h1 (first_scan_accepts_zero_or_threshold _ _ _ _ _ _ _ h1)).
Defined.

(** ** Spellings of a guess *)

Lemma trimStart_spaces (a t : string) :
  allChars isSpace a = true -> trimStart (a ++ t) = trimStart t.
Proof.
  induction a as [|c a IH]; [reflexivity|]. cbn [allChars String.append trimStart].
  intros H. apply andb_true_iff in H as [Hc Ha]. rewrite Hc. now apply IH.
Qed.

Lemma trimEnd_spaces_only (b : string) : allChars isSpace b = true -> trimEnd b = "".
Proof.
  induction b as [|c b IH]; [reflexivity|]. cbn [allChars trimEnd].
  intros H. apply andb_true_iff in H as [Hc Hb]. rewrite (IH Hb). now rewrite Hc.
Qed.

Lemma trimEnd_spaces (t b : string) :
  allChars isSpace b = true -> trimEnd (t ++ b) = trimEnd t.
Proof.
  intros Hb. induction t as [|c t IH]; cbn [String.append trimEnd].
  - now apply trimEnd_spaces_only.
  - now rewrite IH.
Qed.

Lemma trimEnd_solid (t : string) :
  allChars (fun c => negb (isSpace c)) t = true -> trimEnd t = t.
Proof.
  induction t as [|c t IH]; [reflexivity|]. cbn [allChars trimEnd].
  intros H. apply andb_true_iff in H as [Hc Ht]. rewrite (IH Ht).
  destruct t; [|reflexivity]. apply negb_true_iff in Hc. now rewrite Hc.
Qed.

Lemma trimStart_solid (t : string) :
  allChars (fun c => negb (isSpace c)) t = true -> trimStart t = t.
Proof.
  destruct t as [|c t]; [reflexivity|]. cbn [allChars trimStart].
  intros H. apply andb_true_iff in H as [Hc _]. apply negb_true_iff in Hc. now rewrite Hc.
Qed.

Lemma trim_padded (a t b : string) :
  allChars isSpace a = true -> allChars isSpace b = true ->
  allChars (fun c => negb (isSpace c)) t = true ->
  trim (a ++ t ++ b) = t.
Proof.
  intros Ha Hb Ht. unfold trim. rewrite (trimStart_spaces a _ Ha).
  destruct t as [|c t].
  - cbn [String.append]. destruct b as [|d b]; [reflexivity|].
    cbn [allChars] in Hb. apply andb_true_iff in Hb as [Hd Hb].
    cbn [trimStart]. rewrite Hd.
    assert (Hs : forall s, allChars isSpace s = true -> trimStart s = "").
    { induction s as [|e s IH]; [reflexivity|]. cbn [allChars trimStart].
      intros H. apply andb_true_iff in H as [He Hs]. rewrite He. now apply IH. }
    now rewrite (Hs b Hb).
  - assert (Hc : isSpace c = false).
    { cbn [allChars] in Ht. apply andb_true_iff in Ht as [Hc _]. now apply negb_true_iff in Hc. }
    cbn [String.append trimStart]. rewrite Hc.
    change (String c (t ++ b)) with (String c t ++ b).
    rewrite (trimEnd_spaces _ b Hb). now apply trimEnd_solid.
Qed.

Lemma allChars_app (p : ascii -> bool) (s t : string) :
  allChars p (s ++ t) = allChars p s && allChars p t.
Proof.
  induction s as [|c s IH]; [reflexivity|]. cbn [String.append allChars].
  now rewrite IH, andb_assoc.
Qed.

Lemma allChars_impl (p q : ascii -> bool) (s : string) :
  (forall c, p c = true -> q c = true) -> allChars p s = true -> allChars q s = true.
Proof.
  intros Hpq. induction s as [|c s IH]; [reflexivity|]. cbn [allChars].
  intros H. apply andb_true_iff in H as [Hc Hs]. now rewrite (Hpq c Hc), (IH Hs).
Qed.

Lemma word_not_space (c : ascii) : isWordChar c = true -> negb (isSpace c) = true.
Proof. destruct c as [[] [] [] [] [] [] [] []]; cbv; congruence. Qed.

Lemma keepChars_id (keep : ascii -> bool) (s : string) :
  allChars keep s = true -> keepChars keep s = s.
Proof.
  induction s as [|c s IH]; [reflexivity|]. cbn [allChars keepChars].
  intros H. apply andb_true_iff in H as [Hc Hs]. now rewrite Hc, (IH Hs).
Qed.

Lemma strip_word (s : string) :
  allChars isWordChar s = true -> stripCommunityPrefix s = s.
Proof.
  destruct s as [|c1 s1]; [reflexivity|]. cbn [allChars].
  intros H. apply andb_true_iff in H as [H1 Hs1].
  destruct c1 as [[] [] [] [] [] [] [] []]; try reflexivity; try discriminate H1;
    (destruct s1 as [|c2 s2]; [reflexivity|]; cbn [allChars] in Hs1;
     apply andb_true_iff in Hs1 as [H2 _];
     destruct c2 as [[] [] [] [] [] [] [] []]; try reflexivity; discriminate H2).
Qed.

Lemma prefix_solid (p name : string) :
  p ∈ communityPrefixes -> allChars isWordChar name = true ->
  allChars (fun c => negb (isSpace c)) (p ++ name) = true.
Proof.
  intros Hp Hn. rewrite allChars_app.
  rewrite (allChars_impl _ _ name word_not_space Hn), andb_true_r.
  unfold communityPrefixes in Hp. repeat (apply elem_of_cons in Hp as [->|Hp]; [reflexivity|]).
  inversion Hp.
Qed.

Lemma strip_prefixed (p name : string) :
  p ∈ communityPrefixes -> allChars isWordChar name = true ->
  stripCommunityPrefix (p ++ name) = name.
Proof.
  intros Hp Hn. unfold communityPrefixes in Hp.
  apply elem_of_cons in Hp as [->|Hp]; [now apply strip_word|].
  repeat (apply elem_of_cons in Hp as [->|Hp]; [reflexivity|]). inversion Hp.
Qed.

(** A name of letters, digits and underscores normalises to itself, so
    normalising twice is normalising once; and the name typed with one of
    the prefixes r/, /r/, R/, /R/ or none, with white space before and
    after, normalises to the name and matches an answer that differs from
    it in letter case only. *)
Theorem typed_spellings_normalise_to_the_name :
  (forall name, allChars isWordChar name = true -> normalizeGuess name = name) /\
  (forall s, normalizeGuess (normalizeGuess s) = normalizeGuess s) /\
  (forall a p name b,
     allChars isSpace a = true -> allChars isSpace b = true ->
     p ∈ communityPrefixes -> allChars isWordChar name = true ->
     normalizeGuess (a ++ (p ++ name) ++ b) = name /\
     (forall answer, toLowerCase name = toLowerCase answer ->
                     guessMatches (a ++ (p ++ name) ++ b) answer = true)).
Proof.
  assert (Hid : forall name, allChars isWordChar name = true -> normalizeGuess name = name).
  { intros name Hn. unfold normalizeGuess, trim.
    pose proof (allChars_impl _ _ name word_not_space Hn) as Hs.
    rewrite (trimStart_solid _ Hs), (trimEnd_solid _ Hs), (strip_word _ Hn).
    now apply keepChars_id. }
  split; [exact Hid|]. split.
  - intros s. apply Hid. unfold normalizeGuess. apply keepChars_all.
  - intros a p name b Ha Hb Hp Hn.
    assert (E : normalizeGuess (a ++ (p ++ name) ++ b) = name).
    { unfold normalizeGuess.
      rewrite (trim_padded a (p ++ name) b Ha Hb (prefix_solid p name Hp Hn)).
      rewrite (strip_prefixed p name Hp Hn). now apply keepChars_id. }
    split; [exact E|]. intros answer Hans. unfold guessMatches. rewrite E.
    now apply String.eqb_eq.
Qed.

Lemma word_lower_not_slash (c : ascii) :
  isWordChar c = true -> Ascii.eqb "/" (lowerChar c) = false.
Proof. destruct c as [[] [] [] [] [] [] [] []]; cbv; congruence. Qed.

Lemma word_no_prefix (name : string) :
  allChars isWordChar name = true ->
  startsWith "/r/" (toLowerCase name) = false /\ startsWith "r/" (toLowerCase name) = false.
Proof.
  destruct name as [|c1 s1]; [now split|]. cbn [allChars toLowerCase startsWith].
  intros H. apply andb_true_iff in H as [H1 Hs1].
  rewrite (word_lower_not_slash c1 H1). split; [reflexivity|].
  destruct (Ascii.eqb "r" (lowerChar c1)); [|reflexivity].
  destruct s1 as [|c2 s2]; [reflexivity|]. cbn [allChars toLowerCase startsWith] in *.
  apply andb_true_iff in Hs1 as [H2 _]. now rewrite (word_lower_not_slash c2 H2).
Qed.

(** What the client sends for a name typed with one of the prefixes r/,
    /r/, R/, /R/ or none, with white space before and after, is the bare
    name; the server normalises it to the same name, so the client and the
    server agree on such a guess. *)
Theorem client_and_server_agree_on_a_typed_name a p name b :
  allChars isSpace a = true -> allChars isSpace b = true ->
  p ∈ communityPrefixes -> allChars isWordChar name = true ->
  normalizeInput (a ++ (p ++ name) ++ b) = name /\
  normalizeGuess (normalizeInput (a ++ (p ++ name) ++ b))
    = normalizeGuess (a ++ (p ++ name) ++ b).
Proof.
  intros Ha Hb Hp Hn.
  assert (E : normalizeInput (a ++ (p ++ name) ++ b) = name).
  { unfold normalizeInput.
    rewrite (trim_padded a (p ++ name) b Ha Hb (prefix_solid p name Hp Hn)).
    destruct (word_no_prefix name Hn) as [N1 N2].
    unfold communityPrefixes in Hp.
    apply elem_of_cons in Hp as [->|Hp].
    { change ("" ++ name) with name. now rewrite N1, N2. }
    apply elem_of_cons in Hp as [->|Hp].
    { replace (startsWith "/r/" (toLowerCase ("r/" ++ name))) with false by reflexivity.
      replace (startsWith "r/" (toLowerCase ("r/" ++ name))) with true by reflexivity.
      reflexivity. }
    apply elem_of_cons in Hp as [->|Hp].
    { replace (startsWith "/r/" (toLowerCase ("/r/" ++ name))) with true by reflexivity.
      change (sliceFrom 3 ("/r/" ++ name)) with name. now rewrite N2. }
    apply elem_of_cons in Hp as [->|Hp].
    { replace (startsWith "/r/" (toLowerCase ("R/" ++ name))) with false by reflexivity.
      replace (startsWith "r/" (toLowerCase ("R/" ++ name))) with true by reflexivity.
      reflexivity. }
    apply elem_of_cons in Hp as [->|Hp]; [|inversion Hp].
    replace (startsWith "/r/" (toLowerCase ("/R/" ++ name))) with true by reflexivity.
    change (sliceFrom 3 ("/R/" ++ name)) with name. now rewrite N2. }
  split; [exact E|]. rewrite E.
  unfold normalizeGuess at 2.
  rewrite (trim_padded a (p ++ name) b Ha Hb (prefix_solid p name Hp Hn)).
  rewrite (strip_prefixed p name Hp Hn), (keepChars_id _ _ Hn).
  unfold normalizeGuess, trim.
  pose proof (allChars_impl _ _ name word_not_space Hn) as Hs.
  rewrite (trimStart_solid _ Hs), (trimEnd_solid _ Hs), (strip_word _ Hn).
  now apply keepChars_id.
Qed.

(** The text [  /R/AskReddit ] typed into the guess box. *)
Lemma typed_name_witness :
  allChars isSpace "  " = true /\ allChars isSpace " " = true /\
  "/R/" ∈ communityPrefixes /\ allChars isWordChar "AskReddit" = true /\
  normalizeInput ("  " ++ ("/R/" ++ "AskReddit") ++ " ") = "AskReddit" /\
  normalizeGuess (normalizeInput ("  " ++ ("/R/" ++ "AskReddit") ++ " "))
    = normalizeGuess ("  " ++ ("/R/" ++ "AskReddit") ++ " ").
Proof.
  assert (h1 : allChars isSpace "  " = true) by reflexivity.
  assert (h2 : allChars isSpace " " = true) by reflexivity.
  assert (h3 : "/R/" ∈ communityPrefixes) by (unfold communityPrefixes; repeat constructor).
  assert (h4 : allChars isWordChar "AskReddit" = true) by reflexivity.
  exact (conj h1 (conj h2 (conj h3 (conj h4
    (client_and_server_agree_on_a_typed_name "  " "/R/" "AskReddit" " " h1 h2 h3 h4))))).
Defined.

(** ** The day a request is about *)

Lemma digit_not_space (c : ascii) : isDigit c = true -> negb (isSpace c) = true.
Proof. destruct c as [[] [] [] [] [] [] [] []]; cbv; congruence. Qed.

Lemma dateShape_solid (s : string) :
  isDateShape s = true -> allChars (fun c => negb (isSpace c)) s = true.
Proof.
  unfold isDateShape.
  destruct s as [|y1 [|y2 [|y3 [|y4 [|h1 [|m1 [|m2 [|h2 [|d1 [|d2 [|x r]]]]]]]]]]];
    try discriminate.
  intros H.
  repeat match goal with
         | H : (_ && _) = true |- _ => apply andb_true_iff in H as [? ?]
         end.
  repeat match goal with
         | H : Ascii.eqb _ _ = true |- _ => apply Ascii.eqb_eq in H; subst
         end.
  cbn [allChars].
  rewrite (digit_not_space y1), (digit_not_space y2), (digit_not_space y3),
    (digit_not_space y4), (digit_not_space m1), (digit_not_space m2),
    (digit_not_space d1), (digit_not_space d2) by assumption.
  reflexivity.
Qed.

Lemma trim_dateShape (s : string) : isDateShape s = true -> trim s = s.
Proof.
  intros H. apply dateShape_solid in H. unfold trim.
  now rewrite (trimStart_solid _ H), (trimEnd_solid _ H).
Qed.

Lemma utcDateKey_shape (now : Z) :
  0 <= now < 4102444800000 -> isDateShape (utcDateKey now) = true.
Proof.
  intros Hnow. pose proof (utc_yesterday_is_day_before now Hnow) as H.
  unfold dayBefore, parseDateKey in H.
  destruct (isDateShape (utcDateKey now)); [reflexivity | discriminate H].
Qed.

Lemma resolveDateKey_window (now : Z) (raw : Val) :
  Rich.resolveDateKey now raw = Rich.utcDateKeyOffset now (-1) \/
  Rich.resolveDateKey now raw = utcDateKey now \/
  Rich.resolveDateKey now raw = Rich.utcDateKeyOffset now 1.
Proof.
  unfold Rich.resolveDateKey.
  assert (E0 : Rich.utcDateKeyOffset now 0 = utcDateKey now).
  { unfold Rich.utcDateKeyOffset. f_equal. lia. }
  destruct (decide _) as [Hin|_]; [|right; now left].
  rewrite E0 in Hin.
  apply elem_of_list_to_set in Hin.
  repeat (apply elem_of_cons in Hin as [->|Hin]; [tauto|]). inversion Hin.
Qed.

(** The day a request of the first listing is about is always the UTC day
    of the server, the day before or the day after. A client that sends
    one of these three day keys (between 1970 and 2100) gets that day;
    text that is not of the shape YYYY-MM-DD gives the server's day. *)
Theorem day_key_stays_in_the_window :
  (forall now raw,
     Rich.resolveDateKey now raw = Rich.utcDateKeyOffset now (-1) \/
     Rich.resolveDateKey now raw = utcDateKey now \/
     Rich.resolveDateKey now raw = Rich.utcDateKeyOffset now 1) /\
  (forall now d,
     86400000 <= now < 4102358400000 -> -1 <= d <= 1 ->
     Rich.resolveDateKey now (Str (Rich.utcDateKeyOffset now d))
       = Rich.utcDateKeyOffset now d) /\
  (forall now raw,
     isDateShape (trim (toString (nullish raw (Str "")))) = false ->
     Rich.resolveDateKey now raw = utcDateKey now).
Proof.
  split; [exact resolveDateKey_window|]. split.
  - intros now d Hnow Hd.
    assert (Hshape : isDateShape (Rich.utcDateKeyOffset now d) = true).
    { unfold Rich.utcDateKeyOffset. apply utcDateKey_shape. lia. }
    unfold Rich.resolveDateKey, Rich.normalizeClientDateKey. cbn [nullish toString].
    rewrite (trim_dateShape _ Hshape), Hshape.
    destruct (decide _) as [_|Hout]; [reflexivity|]. exfalso. apply Hout.
    apply elem_of_list_to_set.
    assert (Hc : d = -1 \/ d = 0 \/ d = 1) by lia.
    destruct Hc as [->|[->| ->]].
    + left.
    + right. left.
    + right. right. left.
  - intros now raw Hbad. unfold Rich.resolveDateKey, Rich.normalizeClientDateKey.
    rewrite Hbad. destruct (decide _); reflexivity.
Qed.

(** ** The lock route *)





(** ** The give-up route *)


(** ** The keys of the store *)

Lemma split_at_colon (u : string) :
  forall u' a b,
    noColon u = true -> noColon u' = true ->
    u ++ ":" ++ a = u' ++ ":" ++ b -> u = u' /\ a = b.
Proof.
  unfold noColon.
  induction u as [|c t IH]; intros [|c' t'] a b Hu Hu' H; cbn [String.append allChars] in *.
  - injection H as ->. now split.
  - injection H as <- _. discriminate Hu'.
  - injection H as -> _. discriminate Hu.
  - injection H as -> H. apply andb_true_iff in Hu as [_ Hu], Hu' as [_ Hu'].
    destruct (IH t' a b Hu Hu' H) as [-> ->]. now split.
Qed.

Lemma mode_split (m m' : GameMode) (x y : string) :
  modeName m ++ ":" ++ x = modeName m' ++ ":" ++ y -> m = m' /\ x = y.
Proof. destruct m, m'; cbn; intros [=]; subst; now split. Qed.

Lemma keyOf_tail u m s :
  keyOf u m s = "nts:user:" ++ u ++ ":" ++ modeName m ++ ":" ++ tailOf s.
Proof. destruct s; reflexivity. Qed.

Lemma tailOf_inj s s' : tailOf s = tailOf s' -> s = s'.
Proof. destruct s, s'; cbn; intros [=]; subst; reflexivity. Qed.

Lemma keyOf_inj u m s u' m' s' :
  noColon u = true -> noColon u' = true ->
  keyOf u m s = keyOf u' m' s' -> u = u' /\ m = m' /\ s = s'.
Proof.
  intros Hu Hu' H. rewrite !keyOf_tail in H.
  apply append_cancel_l in H.
  apply (split_at_colon u u' _ _ Hu Hu') in H as [-> H].
  apply mode_split in H as [-> H]. apply tailOf_inj in H. now subst.
Qed.

(** The keys of players whose ids hold no colon never collide: a key
    determines the player, the mode and what it stores (a total, or a flag
    of one day), and no key of a player is the cache key of a puzzle. *)
Theorem keys_of_players_never_collide u m s u' m' s' :
  noColon u = true -> noColon u' = true ->
  (keyOf u m s = keyOf u' m' s' <-> u = u' /\ m = m' /\ s = s') /\
  (forall dk m0, keyOf u m s <> kPuzzle dk m0).
Proof.
  intros Hu Hu'. split.
  - split; [now apply keyOf_inj | intros (-> & -> & ->); reflexivity].
  - intros dk m0 H. rewrite keyOf_tail in H. symmetry in H.
    now apply kPuzzle_not_user in H.
Qed.

(** The awarded flag of one player is not the completed flag of another. *)
Lemma keys_witness :
  noColon "t2_u" = true /\ noColon "t2_v" = true /\
  (keyOf "t2_u" easy (SPlayed "2024-01-10") = keyOf "t2_v" easy (SCompleted "2024-01-10") <->
   "t2_u" = "t2_v" /\ easy = easy /\ SPlayed "2024-01-10" = SCompleted "2024-01-10") /\
  (forall dk m0, keyOf "t2_u" easy (SPlayed "2024-01-10") <> kPuzzle dk m0).
Proof.
  assert (h1 : noColon "t2_u" = true) by reflexivity.
  assert (h2 : noColon "t2_v" = true) by reflexivity.
  exact (conj h1 (conj h2
    (keys_of_players_never_collide "t2_u" easy (SPlayed "2024-01-10")
       "t2_v" easy (SCompleted "2024-01-10") h1 h2))).
Defined.

(** ** What a guess can change *)

Lemma awardedStore_other u m dk now points (r : gmap string string) (k : string) :
  k <> kPlayed u m dk -> k <> kScore u m -> k <> kStreak u m -> k <> kLastDate u m ->
  awardedStore u m dk now points r !! k = r !! k.
Proof.
  intros H1 H2 H3 H4. unfold awardedStore.
  rewrite !lookup_insert_ne by congruence. reflexivity.
Qed.

Lemma rich_postGuess_frame W now raw (r : gmap string string) u m dk (k : string) :
  RichRun.target W now (bodyOrEmpty raw) = (u, m, dk) ->
  k <> kCommit u m dk -> k <> kPuzzle dk m -> k <> kCompleted u m dk ->
  k <> kPlayed u m dk -> k <> kScore u m -> k <> kStreak u m -> k <> kLastDate u m ->
  (Rich.postGuess W now raw r).1 !! k = r !! k.
Proof.
  intros Ht K1 K2 K3 K4 K5 K6 K7.
  rewrite (RichFacts.postGuess_run _ _ _ _ _ _ _ Ht).
  pose proof (build_frame Rich.pickSubredditForMode W dk m (committedStore u m dk r) k K2) as Hf.
  fold Rich.buildDailyPuzzle in Hf. rewrite committedStore_other in Hf by exact K1.
  destruct (Rich.buildDailyPuzzle W dk m (committedStore u m dk r)) as [r2 [puzzle|e]];
    cbn [fst snd] in *; [|exact Hf].
  unfold RichRun.guessOutcome. cbn [fst].
  destruct (negb _ && (_ || _)); destruct (negb _ && (_ && _));
    rewrite ?lookup_insert_ne by congruence;
    rewrite ?awardedStore_other by assumption; exact Hf.
Qed.

Lemma basic_postGuess_frame W now raw (r : gmap string string) u m dk (k : string) :
  BasicRun.target W now (bodyOrEmpty raw) = (u, m, dk) ->
  k <> kCommit u m dk -> k <> kPuzzle dk m ->
  k <> kPlayed u m dk -> k <> kScore u m -> k <> kStreak u m -> k <> kLastDate u m ->
  (Basic.postGuess W now raw r).1 !! k = r !! k.
Proof.
  intros Ht K1 K2 K4 K5 K6 K7.
  rewrite (BasicFacts.basic_postGuess_run _ _ _ _ _ _ _ Ht).
  pose proof (build_frame Basic.pickSubredditForMode W dk m (committedStore u m dk r) k K2) as Hf.
  fold Basic.buildDailyPuzzle in Hf. rewrite committedStore_other in Hf by exact K1.
  destruct (Basic.buildDailyPuzzle W dk m (committedStore u m dk r)) as [r2 [puzzle|e]];
    cbn [fst snd] in *; [|exact Hf].
  unfold BasicRun.guessOutcome. cbn [fst].
  destruct (_ && negb _);
    rewrite ?awardedStore_other by assumption; exact Hf.
Qed.

Lemma keyOf_other u m dk u' m' s :
  noColon u = true -> noColon u' = true ->
  u' <> u \/ m' <> m \/ (exists dk', dayOf s = Some dk' /\ dk' <> dk) ->
  keyOf u' m' s <> kCommit u m dk /\ keyOf u' m' s <> kCompleted u m dk /\
  keyOf u' m' s <> kPlayed u m dk /\
  keyOf u' m' s <> kScore u m /\ keyOf u' m' s <> kStreak u m /\
  keyOf u' m' s <> kLastDate u m /\
  keyOf u' m' s <> kPuzzle dk m.
Proof.
  intros Hu Hu' Hdiff.
  assert (Hday : forall s0, dayOf s0 = Some dk -> keyOf u' m' s <> keyOf u m s0).
  { intros s0 Hs0 H. apply (keyOf_inj _ _ _ _ _ _ Hu' Hu) in H as (-> & -> & ->).
    destruct Hdiff as [H|[H|(dk' & Hd & Hne)]]; [congruence | congruence |].
    rewrite Hs0 in Hd. congruence. }
  assert (Htot : forall s0, dayOf s0 = None -> keyOf u' m' s <> keyOf u m s0).
  { intros s0 Hs0 H. apply (keyOf_inj _ _ _ _ _ _ Hu' Hu) in H as (-> & -> & ->).
    destruct Hdiff as [H|[H|(dk' & Hd & Hne)]]; [congruence | congruence |].
    rewrite Hs0 in Hd. discriminate Hd. }
  split; [exact (Hday (SCommit dk) eq_refl)|].
  split; [exact (Hday (SCompleted dk) eq_refl)|].
  split; [exact (Hday (SPlayed dk) eq_refl)|].
  split; [exact (Htot SScore eq_refl)|].
  split; [exact (Htot SStreak eq_refl)|].
  split; [exact (Htot SLastDate eq_refl)|].
  intros H. rewrite keyOf_tail in H. symmetry in H. now apply kPuzzle_not_user in H.
Qed.

(** A guess of a player in a mode for a day leaves alone what the store
    keeps for every other player, for every other mode, and the flags of
    every other day (ids of players hold no colon). In both listings. *)
Theorem guess_leaves_other_players_alone (W : Reddit) (now : Z) (raw : option Body)
    (r : gmap string string) (u' : string) (m' : GameMode) (s : Slot) :
  noColon (Rich.userIdOf W) = true -> noColon u' = true ->
  (let u := Rich.userIdOf W in
   let m := normalizeMode (b_mode (bodyOrEmpty raw)) in
   let dk := Rich.resolveDateKey now (b_dateKey (bodyOrEmpty raw)) in
   u' <> u \/ m' <> m \/ (exists dk', dayOf s = Some dk' /\ dk' <> dk) ->
   (Rich.postGuess W now raw r).1 !! keyOf u' m' s = r !! keyOf u' m' s) /\
  (let u := Basic.userIdOf W in
   let m := normalizeMode (b_mode (bodyOrEmpty raw)) in
   let dk := utcDateKey now in
   u' <> u \/ m' <> m \/ (exists dk', dayOf s = Some dk' /\ dk' <> dk) ->
   (Basic.postGuess W now raw r).1 !! keyOf u' m' s = r !! keyOf u' m' s).
Proof.
  intros Hu Hu'. split; cbv zeta; intros Hdiff.
  - destruct (keyOf_other _ _ _ _ _ _ Hu Hu' Hdiff) as (K1 & K2 & K3 & K4 & K5 & K6 & K7).
    now apply (rich_postGuess_frame W now raw r _ _ _ _ eq_refl).
  - change (Basic.userIdOf W) with (Rich.userIdOf W) in *.
    destruct (keyOf_other _ _ _ _ _ _ Hu Hu' Hdiff) as (K1 & K2 & K3 & K4 & K5 & K6 & K7).
    now apply (basic_postGuess_frame W now raw r _ _ _ _ eq_refl).
Qed.

(** ** Totals as the store keeps them *)


Lemma uint_text_nonempty (d : Decimal.uint) :
  d <> Decimal.Nil -> NilEmpty.string_of_uint d <> "".
Proof. destruct d; [congruence | discriminate ..]. Qed.





Lemma stagePoints_range (stage : Val) : 0 < stagePoints stage <= 100.
Proof. unfold stagePoints. destruct (isNum stage 1), (isNum stage 2); lia. Qed.


(** ** What a guess does to the day *)

Lemma build_throw_store pick W dk m (r : gmap string string) e :
  (buildDailyPuzzleWith pick W dk m r).2 = Throw e ->
  (buildDailyPuzzleWith pick W dk m r).1 = r.
Proof.
  destruct (cachedText r dk m) as [text|] eqn:Hc.
  - rewrite (build_hit pick W dk m r text Hc). reflexivity.
  - rewrite (build_miss pick W dk m r Hc).
    destruct (freshPuzzle pick W dk m); [discriminate | reflexivity].
Qed.


(** A guess scores exactly when it is correct and the awarded flag of the
    day is not set (and, in the first listing, the day is not completed).
    A guess that scores awards the points of its stage, sets the awarded
    flag and stores the day as the last played day; one that does not
    leaves the awarded flag, the total, the streak and the last played
    day as they were. The second listing has no completed flag: there a
    correct guess scores also after a wrong guess at stage 3. *)
Theorem a_guess_scores_exactly_when (W : Reddit) (now : Z) (raw : option Body)
    (r : gmap string string) :
  (forall resp, (Rich.postGuess W now raw r).2 = Ok resp ->
     let u := Rich.userIdOf W in
     let m := normalizeMode (b_mode (bodyOrEmpty raw)) in
     let dk := Rich.resolveDateKey now (b_dateKey (bodyOrEmpty raw)) in
     let after := (Rich.postGuess W now raw r).1 in
     (0 < Rich.pointsAwarded resp <->
      Rich.correct resp = true /\ isOne (r !! kCompleted u m dk) = false /\
      isOne (r !! kPlayed u m dk) = false) /\
     (0 < Rich.pointsAwarded resp ->
      Rich.pointsAwarded resp = stagePoints (Rich.stageUsed resp) /\
      after !! kPlayed u m dk = Some "1" /\ after !! kLastDate u m = Some dk) /\
     (Rich.pointsAwarded resp = 0 ->
      after !! kPlayed u m dk = r !! kPlayed u m dk /\
      after !! kScore u m = r !! kScore u m /\
      after !! kStreak u m = r !! kStreak u m /\
      after !! kLastDate u m = r !! kLastDate u m) /\
     (0 < Rich.pointsAwarded resp \/ Rich.pointsAwarded resp = 0)) /\
  (forall resp, (Basic.postGuess W now raw r).2 = Ok resp ->
     let u := Basic.userIdOf W in
     let m := normalizeMode (b_mode (bodyOrEmpty raw)) in
     let dk := utcDateKey now in
     let after := (Basic.postGuess W now raw r).1 in
     (0 < Basic.pointsAwarded resp <->
      Basic.correct resp = true /\ isOne (r !! kPlayed u m dk) = false) /\
     (0 < Basic.pointsAwarded resp ->
      Basic.pointsAwarded resp = stagePoints (Basic.stageUsed resp) /\
      after !! kPlayed u m dk = Some "1" /\ after !! kLastDate u m = Some dk) /\
     (Basic.pointsAwarded resp = 0 ->
      after !! kPlayed u m dk = r !! kPlayed u m dk /\
      after !! kScore u m = r !! kScore u m /\
      after !! kStreak u m = r !! kStreak u m /\
      after !! kLastDate u m = r !! kLastDate u m) /\
     (0 < Basic.pointsAwarded resp \/ Basic.pointsAwarded resp = 0)).
Proof.
  split; intros resp; cbv zeta.
  - set (u := Rich.userIdOf W). set (m := normalizeMode _).
    set (dk := Rich.resolveDateKey _ _).
    rewrite (RichFacts.postGuess_run W now raw r u m dk eq_refl).
    set (r1 := committedStore u m dk r).
    pose proof (build_frame Rich.pickSubredditForMode W dk m r1) as Hf.
    fold Rich.buildDailyPuzzle in Hf.
    assert (H1 : forall k, k <> kCommit u m dk -> r1 !! k = r !! k)
      by (intros; now apply committedStore_other).
    destruct (Rich.buildDailyPuzzle W dk m r1) as [r2 [puzzle|e]]; cbn [fst snd] in *;
      [|discriminate].
    assert (H2 : forall k, k <> kCommit u m dk -> k <> kPuzzle dk m -> r2 !! k = r !! k).
    { intros k K1 K2. rewrite Hf by exact K2. now apply H1. }
    unfold RichRun.guessOutcome. cbn [fst snd].
    rewrite !(H2 (kCompleted u m dk)) by key_ne. rewrite !(H2 (kPlayed u m dk)) by key_ne.
    intros [= <-]. cbn [Rich.pointsAwarded Rich.correct Rich.stageUsed].
    pose proof (stagePoints_range (stageOf (bodyOrEmpty raw))) as Hr.
    set (c := guessMatches _ _) in *. set (stage := stageOf _) in *.
    set (dn := isOne (r !! kCompleted u m dk)). set (pl := isOne (r !! kPlayed u m dk)).
    assert (Hk : forall (fin : bool) (r3 : gmap string string) k,
              k <> kCompleted u m dk ->
              (if fin then <[kCompleted u m dk := "1"]> r3 else r3) !! k = r3 !! k).
    { intros fin r3 k Hk. destruct fin; [now apply lookup_insert_ne|reflexivity]. }
    rewrite !Hk by key_ne.
    destruct c, dn, pl; cbn [negb andb orb];
      rewrite ?awardedStore_played, ?awardedStore_lastDate;
      rewrite ?(H2 (kPlayed u m dk)), ?(H2 (kScore u m)), ?(H2 (kStreak u m)),
        ?(H2 (kLastDate u m)) by key_ne;
      (split; [split; [intros; try lia; repeat split; reflexivity | intros (? & ? & ?); first [discriminate | lia]]|]);
      (split; [intros; try lia; repeat split; reflexivity|]);
      (split; [intros; try lia; repeat split; reflexivity|]); lia.
  - set (u := Basic.userIdOf W). set (m := normalizeMode _).
    set (dk := utcDateKey now).
    rewrite (BasicFacts.basic_postGuess_run W now raw r u m dk eq_refl).
    set (r1 := committedStore u m dk r).
    pose proof (build_frame Basic.pickSubredditForMode W dk m r1) as Hf.
    fold Basic.buildDailyPuzzle in Hf.
    assert (H1 : forall k, k <> kCommit u m dk -> r1 !! k = r !! k)
      by (intros; now apply committedStore_other).
    destruct (Basic.buildDailyPuzzle W dk m r1) as [r2 [puzzle|e]]; cbn [fst snd] in *;
      [|discriminate].
    assert (H2 : forall k, k <> kCommit u m dk -> k <> kPuzzle dk m -> r2 !! k = r !! k).
    { intros k K1 K2. rewrite Hf by exact K2. now apply H1. }
    unfold BasicRun.guessOutcome. cbn [fst snd].
    rewrite !(H2 (kPlayed u m dk)) by key_ne.
    intros [= <-]. cbn [Basic.pointsAwarded Basic.correct Basic.stageUsed].
    pose proof (stagePoints_range (stageOf (bodyOrEmpty raw))) as Hr.
    set (c := guessMatches _ _) in *. set (stage := stageOf _) in *.
    set (pl := isOne (r !! kPlayed u m dk)).
    destruct c, pl; cbn [negb andb orb];
      rewrite ?awardedStore_played, ?awardedStore_lastDate;
      rewrite ?(H2 (kPlayed u m dk)), ?(H2 (kScore u m)), ?(H2 (kStreak u m)),
        ?(H2 (kLastDate u m)) by key_ne;
      (split; [split; [intros; try lia; repeat split; reflexivity | intros (? & ?); first [discriminate | lia]]|]);
      (split; [intros; try lia; repeat split; reflexivity|]);
      (split; [intros; try lia; repeat split; reflexivity|]); lia.
Qed.

(** ** The state route *)

Lemma rich_getState_run W now q (r : gmap string string) u m dk :
  RichRun.target W now q = (u, m, dk) ->
  Rich.getState W now q r =
  match Rich.buildDailyPuzzle W dk m r with
  | (r2, Ok puzzle) =>
      (r2, Ok {| Rich.gs_puzzle := puzzle; Rich.gs_modeLocked := m;
                 Rich.gs_modeIsLocked := isOne (r !! kCommit u m dk);
                 Rich.gs_completedToday := isOne (r !! kCompleted u m dk);
                 Rich.gs_totalScore := numberOr0 (r2 !! kScore u m);
                 Rich.gs_streak := numberOr0 (r2 !! kStreak u m);
                 Rich.gs_lastPlayedDateKey := r2 !! kLastDate u m |})
  | (r2, Throw e) => (r2, Throw e)
  end.
Proof.
  unfold RichRun.target. intros [= <- <- <-]. unfold Rich.getState.
  cbv [readCommitted readCompleted bindM mbind M_bind mret M_ret redis_get].
  destruct (Rich.buildDailyPuzzle _ _ _ _) as [r2 [puzzle|e]]; reflexivity.
Qed.

Lemma basic_getState_run W now q (r : gmap string string) u m dk :
  BasicRun.target W now q = (u, m, dk) ->
  Basic.getState W now q r =
  match Basic.buildDailyPuzzle W dk m r with
  | (r2, Ok puzzle) =>
      (r2, Ok {| Basic.gs_puzzle := puzzle; Basic.gs_modeLocked := m;
                 Basic.gs_modeIsLocked := isOne (r !! kCommit u m dk);
                 Basic.gs_totalScore := numberOr0 (r2 !! kScore u m);
                 Basic.gs_streak := numberOr0 (r2 !! kStreak u m);
                 Basic.gs_lastPlayedDateKey := r2 !! kLastDate u m |})
  | (r2, Throw e) => (r2, Throw e)
  end.
Proof.
  unfold BasicRun.target. intros [= <- <- <-]. unfold Basic.getState.
  cbv [readCommitted bindM mbind M_bind mret M_ret redis_get].
  destruct (Basic.buildDailyPuzzle _ _ _ _) as [r2 [puzzle|e]]; reflexivity.
Qed.

(** A state request for the player, mode and day of a guess that was
    answered shows what the reply of the guess said: the same total and
    streak, the mode locked, the same completed flag and the puzzle whose
    community the reply named; and it leaves the store as the guess left
    it. *)
Theorem state_after_a_guess_shows_the_reply (W W' : Reddit) (now now' : Z)
    (raw : option Body) (q : Body) (r : gmap string string) (resp : Rich.GuessResponse) :
  RichRun.target W' now' q = RichRun.target W now (bodyOrEmpty raw) ->
  (Rich.postGuess W now raw r).2 = Ok resp ->
  let after := (Rich.postGuess W now raw r).1 in
  exists st,
    Rich.getState W' now' q after = (after, Ok st) /\
    Rich.gs_totalScore st = Rich.totalScore resp /\
    Rich.gs_streak st = Rich.streak resp /\
    Rich.gs_modeLocked st = Rich.modeLocked resp /\
    Rich.gs_modeIsLocked st = Rich.modeIsLocked resp /\
    Rich.gs_completedToday st = Rich.completedToday resp /\
    subreddit (Rich.gs_puzzle st) = Rich.answer resp.
Proof.
  intros Ht. cbv zeta.
  set (u := Rich.userIdOf W). 
  set (m := normalizeMode (b_mode (bodyOrEmpty raw))).
  set (dk := Rich.resolveDateKey now (b_dateKey (bodyOrEmpty raw))).
  change (RichRun.target W now (bodyOrEmpty raw)) with (u, m, dk) in Ht.
  rewrite (rich_getState_run W' now' q _ u m dk Ht).
  rewrite (RichFacts.postGuess_run W now raw r u m dk eq_refl).
  set (r1 := committedStore u m dk r).
  pose proof (build_frame Rich.pickSubredditForMode W dk m r1) as Hf.
  pose proof (build_caches Rich.pickSubredditForMode W dk m r1) as Hc.
  fold Rich.buildDailyPuzzle in Hf, Hc.
  assert (Hcommit : isOne (r1 !! kCommit u m dk) = true) by apply committedStore_committed.
  destruct (Rich.buildDailyPuzzle W dk m r1) as [r2 [puzzle|e]]; cbn [fst snd] in *;
    [|discriminate].
  specialize (Hc r2 puzzle eq_refl).
  assert (Hc2 : isOne (r2 !! kCommit u m dk) = true) by (rewrite Hf by key_ne; exact Hcommit).
  unfold RichRun.guessOutcome. cbn [fst snd].
  set (r4 := if negb _ && (_ || _) then _ else _).
  intros [= <-].
  cbn [Rich.totalScore Rich.streak Rich.modeLocked Rich.modeIsLocked Rich.completedToday
       Rich.answer].
  assert (Hp4 : r4 !! kPuzzle dk m = r2 !! kPuzzle dk m).
  { unfold r4.
    destruct (negb _ && (_ || _)); destruct (negb _ && (_ && _));
      rewrite ?lookup_insert_ne by key_ne; rewrite ?awardedStore_other by key_ne; reflexivity. }
  assert (Hk4 : isOne (r4 !! kCommit u m dk) = true).
  { unfold r4.
    destruct (negb _ && (_ || _)); destruct (negb _ && (_ && _));
      rewrite ?lookup_insert_ne by key_ne; rewrite ?awardedStore_other by key_ne; exact Hc2. }
  assert (Hcached : cachedPuzzle r4 dk m = Some puzzle).
  { rewrite (cachedPuzzle_ext r2 r4 dk m Hp4). exact Hc. }
  pose proof (build_cached Rich.pickSubredditForMode W' dk m r4 puzzle Hcached) as Hb.
  fold Rich.buildDailyPuzzle in Hb. rewrite Hb.
  eexists. split; [reflexivity|].
  cbn [Rich.gs_totalScore Rich.gs_streak Rich.gs_modeLocked Rich.gs_modeIsLocked
       Rich.gs_completedToday Rich.gs_puzzle].
  rewrite Hk4. repeat split.
Qed.

(** After the win of [Demo.winBody] a state request shows the total 350. *)
Lemma state_after_guess_witness :
  RichRun.target Demo.world Demo.jan10 Demo.stateQuery
    = RichRun.target Demo.world Demo.jan10 (bodyOrEmpty (Some Demo.winBody)) /\
  (Rich.postGuess Demo.world Demo.jan10 (Some Demo.winBody)
     (Demo.storeWithStreak "2024-01-10")).2 = Ok Demo.winReply /\
  exists st,
    Rich.getState Demo.world Demo.jan10 Demo.stateQuery
      (Rich.postGuess Demo.world Demo.jan10 (Some Demo.winBody)
         (Demo.storeWithStreak "2024-01-10")).1
    = ((Rich.postGuess Demo.world Demo.jan10 (Some Demo.winBody)
          (Demo.storeWithStreak "2024-01-10")).1, Ok st) /\
    Rich.gs_totalScore st = Rich.totalScore Demo.winReply /\
    Rich.gs_streak st = Rich.streak Demo.winReply /\
    Rich.gs_modeLocked st = Rich.modeLocked Demo.winReply /\
    Rich.gs_modeIsLocked st = Rich.modeIsLocked Demo.winReply /\
    Rich.gs_completedToday st = Rich.completedToday Demo.winReply /\
    subreddit (Rich.gs_puzzle st) = Rich.answer Demo.winReply.
Proof.
  assert (h1 : RichRun.target Demo.world Demo.jan10 Demo.stateQuery
               = RichRun.target Demo.world Demo.jan10 (bodyOrEmpty (Some Demo.winBody)))
    by (vm_compute; reflexivity).
  assert (h2 : (Rich.postGuess Demo.world Demo.jan10 (Some Demo.winBody)
                  (Demo.storeWithStreak "2024-01-10")).2 = Ok Demo.winReply)
    by (vm_compute; reflexivity).
  exact (conj h1 (conj h2
    (state_after_a_guess_shows_the_reply Demo.world Demo.world Demo.jan10 Demo.jan10
       (Some Demo.winBody) Demo.stateQuery (Demo.storeWithStreak "2024-01-10")
       Demo.winReply h1 h2))).
Defined.

(** A state request of the second listing writes nothing about the
    player: only the cache entry of the puzzle can change. It reports the
    lock as the store has it and never sets it, and a second request
    right after gives the same answer and leaves the store as it is. *)
Theorem second_state_request_is_read_only (W : Reddit) (now : Z) (q : Body)
    (r : gmap string string) :
  let u := Basic.userIdOf W in
  let m := normalizeMode (b_mode q) in
  let dk := utcDateKey now in
  let out := Basic.getState W now q r in
  (forall k, k <> kPuzzle dk m -> out.1 !! k = r !! k) /\
  (forall st, out.2 = Ok st ->
     Basic.gs_modeIsLocked st = isOne (r !! kCommit u m dk) /\
     Basic.gs_modeLocked st = m /\
     Basic.gs_totalScore st = numberOr0 (r !! kScore u m) /\
     Basic.gs_streak st = numberOr0 (r !! kStreak u m) /\
     Basic.gs_lastPlayedDateKey st = r !! kLastDate u m) /\
  (forall e, out.2 = Throw e -> out.1 = r) /\
  Basic.getState W now q out.1 = out.
Proof.
  cbv zeta.
  set (u := Basic.userIdOf W). set (m := normalizeMode _). set (dk := utcDateKey now).
  rewrite !(basic_getState_run W now q _ u m dk eq_refl).
  pose proof (build_frame Basic.pickSubredditForMode W dk m r) as Hf.
  pose proof (build_throw_store Basic.pickSubredditForMode W dk m r) as Ht.
  pose proof (build_twice Basic.pickSubredditForMode W dk m r) as H2.
  fold Basic.buildDailyPuzzle in Hf, Ht, H2. cbv zeta in H2.
  destruct (Basic.buildDailyPuzzle W dk m r) as [r2 [puzzle|e]]; cbn [fst snd] in *.
  - split; [exact Hf|]. split.
    + intros st [= <-]. cbn. rewrite !Hf by key_ne. repeat split.
    + split; [intros e [=]|]. rewrite H2. rewrite !Hf by key_ne. reflexivity.
  - split; [exact Hf|]. split; [intros st [=]|].
    split; [intros e' _; now apply (Ht e)|]. rewrite H2. reflexivity.
Qed.

(** ** Why a puzzle cannot be built *)

Lemma freshPuzzle_errors pick W dk m e :
  (forall e', pick W dk m = Throw e' -> e' = Rejected) ->
  freshPuzzle pick W dk m = Throw e ->
  e = Rejected \/ (exists sub, e = NoPostsFound sub) \/ (exists id, e = NoUsableComments id).
Proof.
  intros Hpick. unfold freshPuzzle.
  destruct (pick W dk m) as [sub|e0]; [|intros [= <-]; left; now apply Hpick].
  assert (Hlist : forall e', listPosts W sub 50 = Throw e' -> e' = Rejected).
  { unfold listPosts. intros e'. destruct (getNewPosts W sub 50); [discriminate|].
    destruct (getHotPosts W sub 50); [discriminate|]. now intros [= <-]. }
  destruct (listPosts W sub 50) as [posts|e0]; [|intros [= <-]; left; now apply Hlist].
  destruct (len posts =? 0) eqn:Hz; [intros [= <-]; right; left; now exists sub|].
  assert (Hne : posts <> []) by (intros ->; discriminate Hz).
  destruct (at_pick posts
              (seedFromString (dk ++ ":" ++ modeName m ++ ":" ++ sub ++ ":post")) Hne)
    as (post & Hpost & _).
  rewrite Hpost.
  destruct (getComments W (p_id post) 200) as [comments|]; [|intros [= <-]; now left].
  cbv zeta.
  destruct (len (commentPool sub comments) =? 0) eqn:Hz2;
    [intros [= <-]; right; right; now exists (p_id post)|].
  assert (Hne2 : commentPool sub comments <> []).
  { intros E. rewrite E in Hz2. discriminate Hz2. }
  destruct (at_pick (commentPool sub comments)
              (seedFromString (dk ++ ":" ++ modeName m ++ ":" ++ sub ++ ":comment")) Hne2)
    as (c & Hc & _).
  rewrite Hc. discriminate.
Qed.

Lemma rich_pick_throws W dk m e : Rich.pickSubredditForMode W dk m = Throw e -> e = Rejected.
Proof.
  destruct (rich_pick_spec W dk m) as [Hok Hno].
  destruct (listPosts W "all" 120) as [posts|e0] eqn:Hl.
  - destruct (Hok posts eq_refl) as (sub & -> & _). discriminate.
  - rewrite (Hno e0 eq_refl). now intros [= <-].
Qed.

Lemma basic_pick_throws W dk m e : Basic.pickSubredditForMode W dk m = Throw e -> e = Rejected.
Proof.
  destruct (basic_pick_spec W dk m) as [Hok Hno].
  destruct (listPosts W "all" 150) as [posts|e0] eqn:Hl.
  - destruct (Hok posts eq_refl) as (sub & -> & _). discriminate.
  - rewrite (Hno e0 eq_refl). now intros [= <-].
Qed.

(** A build that fails leaves the store as it was, so the next request
    tries again. On a cache miss it fails for one of three reasons only:
    the content source refused a request, the community has no posts, or
    the post has no usable comment; no array is read past its end. In
    both listings. *)
Theorem build_fails_only_for_named_reasons (W : Reddit) (dk : string) (m : GameMode)
    (r : gmap string string) (e : Error) :
  ((Rich.buildDailyPuzzle W dk m r).2 = Throw e ->
   (Rich.buildDailyPuzzle W dk m r).1 = r /\
   (cachedText r dk m = None ->
    e <> TypeError /\
    (e = Rejected \/ (exists sub, e = NoPostsFound sub) \/
     (exists id, e = NoUsableComments id)))) /\
  ((Basic.buildDailyPuzzle W dk m r).2 = Throw e ->
   (Basic.buildDailyPuzzle W dk m r).1 = r /\
   (cachedText r dk m = None ->
    e <> TypeError /\
    (e = Rejected \/ (exists sub, e = NoPostsFound sub) \/
     (exists id, e = NoUsableComments id)))).
Proof.
  assert (Hgen : forall pick,
    (forall e', pick W dk m = Throw e' -> e' = Rejected) ->
    (buildDailyPuzzleWith pick W dk m r).2 = Throw e ->
    (buildDailyPuzzleWith pick W dk m r).1 = r /\
    (cachedText r dk m = None ->
     e <> TypeError /\
     (e = Rejected \/ (exists sub, e = NoPostsFound sub) \/
      (exists id, e = NoUsableComments id)))).
  { intros pick Hpick He. split; [now apply (build_throw_store pick W dk m r e)|].
    intros Hmiss. rewrite (build_miss pick W dk m r Hmiss) in He.
    destruct (freshPuzzle pick W dk m) as [p|e0] eqn:Hfresh; [discriminate He|].
    cbn in He. injection He as ->.
    pose proof (freshPuzzle_errors pick W dk m e Hpick Hfresh) as Hcases.
    split; [|exact Hcases].
    destruct Hcases as [->|[[sub ->]|[id ->]]]; discriminate. }
  split.
  - apply (Hgen Rich.pickSubredditForMode). intros e'. apply rich_pick_throws.
  - apply (Hgen Basic.pickSubredditForMode). intros e'. apply basic_pick_throws.
Qed.

(** ** Requests before a guess *)



(** ** The mode of a request *)

Lemma lowerChar_idem (c : ascii) : lowerChar (lowerChar c) = lowerChar c.
Proof. destruct c as [[] [] [] [] [] [] [] []]; reflexivity. Qed.

Lemma toLowerCase_idem (s : string) : toLowerCase (toLowerCase s) = toLowerCase s.
Proof.
  induction s as [|c s IH]; [reflexivity|]. cbn [toLowerCase].
  now rewrite lowerChar_idem, IH.
Qed.

(** The mode of a request is read without regard to letter case, the
    name of each mode is read back as that mode, and every text that is
    not the name of a mode in some letter case, and every absent value,
    gives medium. *)
Theorem mode_is_read_without_case :
  (forall m, normalizeMode (Str (modeName m)) = m) /\
  (forall s, normalizeMode (Str (toLowerCase s)) = normalizeMode (Str s)) /\
  (forall s m, m <> medium ->
     (normalizeMode (Str s) = m <-> toLowerCase s = modeName m)) /\
  normalizeMode Undefined = medium /\ normalizeMode Null = medium.
Proof.
  split; [intros []; reflexivity|]. split.
  - intros s. unfold normalizeMode. cbn [nullish toString]. now rewrite toLowerCase_idem.
  - split; [|split; reflexivity].
    intros s m Hm. unfold normalizeMode. cbn [nullish toString].
    destruct (String.eqb_spec (toLowerCase s) "easy") as [->|H1].
    { destruct m; cbn; split; congruence. }
    destruct (String.eqb_spec (toLowerCase s) "medium") as [->|H2].
    { destruct m; cbn; split; congruence. }
    destruct (String.eqb_spec (toLowerCase s) "hard") as [->|H3].
    { destruct m; cbn; split; congruence. }
    destruct m; cbn; split; congruence.
Qed.

(** ** The text of a day key *)

(** Between 1970 and 2100 the day key of a time has the shape YYYY-MM-DD
    with month and day padded to two digits: ten characters without white
    space, which the server accepts unchanged as a key sent by a client. *)
Theorem day_key_is_well_formed (now : Z) :
  0 <= now < 4102444800000 ->
  isDateShape (utcDateKey now) = true /\
  strlen (utcDateKey now) = 10 /\
  trim (utcDateKey now) = utcDateKey now /\
  (forall now', Rich.normalizeClientDateKey now' (Str (utcDateKey now)) = utcDateKey now).
Proof.
  intros Hnow. pose proof (utcDateKey_shape now Hnow) as Hs.
  pose proof (trim_dateShape _ Hs) as Ht.
  split; [exact Hs|]. split; [|split; [exact Ht|]].
  - unfold isDateShape in Hs.
    destruct (utcDateKey now)
      as [|y1 [|y2 [|y3 [|y4 [|h1 [|m1 [|m2 [|h2 [|d1 [|d2 [|x t]]]]]]]]]]];
      try discriminate Hs. reflexivity.
  - intros now'. unfold Rich.normalizeClientDateKey. cbn [nullish toString].
    now rewrite Ht, Hs.
Qed.

(** The day key of noon on 2024-01-10. *)
Lemma day_key_shape_witness :
  0 <= Demo.jan10 < 4102444800000 /\
  isDateShape (utcDateKey Demo.jan10) = true /\
  strlen (utcDateKey Demo.jan10) = 10 /\
  trim (utcDateKey Demo.jan10) = utcDateKey Demo.jan10 /\
  (forall now', Rich.normalizeClientDateKey now' (Str (utcDateKey Demo.jan10))
                = utcDateKey Demo.jan10).
Proof.
  assert (h1 : 0 <= Demo.jan10 < 4102444800000) by (unfold Demo.jan10; lia).
  exact (conj h1 (day_key_is_well_formed Demo.jan10 h1)).
Defined.

(** ** Examples for the further properties *)

(** A guess of t2_u leaves the total of t2_v as it is. *)
Lemma other_players_witness :
  noColon (Rich.userIdOf Demo.world) = true /\ noColon "t2_v" = true /\
  (Rich.postGuess Demo.world Demo.jan10 (Some Demo.winBody)
     (Demo.storeWithStreak "2024-01-10")).1 !! keyOf "t2_v" easy SScore
  = Demo.storeWithStreak "2024-01-10" !! keyOf "t2_v" easy SScore.
Proof.
  assert (h1 : noColon (Rich.userIdOf Demo.world) = true) by reflexivity.
  assert (h2 : noColon "t2_v" = true) by reflexivity.
  refine (conj h1 (conj h2 _)).
  apply (proj1 (guess_leaves_other_players_alone Demo.world Demo.jan10 (Some Demo.winBody)
                  (Demo.storeWithStreak "2024-01-10") "t2_v" easy SScore h1 h2)).
  left. vm_compute. discriminate.
Defined.

(** The win of [Demo.winBody] scores 100 points at stage 1. *)
Lemma scoring_witness :
  (Rich.postGuess Demo.world Demo.jan10 (Some Demo.winBody)
     (Demo.storeWithStreak "2024-01-10")).2 = Ok Demo.winReply /\
  0 < Rich.pointsAwarded Demo.winReply /\
  Rich.pointsAwarded Demo.winReply = stagePoints (Rich.stageUsed Demo.winReply) /\
  (Rich.postGuess Demo.world Demo.jan10 (Some Demo.winBody)
     (Demo.storeWithStreak "2024-01-10")).1 !! kPlayed "t2_u" easy "2024-01-10" = Some "1" /\
  (Rich.postGuess Demo.world Demo.jan10 (Some Demo.winBody)
     (Demo.storeWithStreak "2024-01-10")).1 !! kLastDate "t2_u" easy = Some "2024-01-10".
Proof.
  assert (h1 : (Rich.postGuess Demo.world Demo.jan10 (Some Demo.winBody)
                  (Demo.storeWithStreak "2024-01-10")).2 = Ok Demo.winReply)
    by (vm_compute; reflexivity).
  assert (h2 : 0 < Rich.pointsAwarded Demo.winReply) by (vm_compute; reflexivity).
  refine (conj h1 (conj h2 _)).
  exact (proj1 (proj2 (proj1 (a_guess_scores_exactly_when Demo.world Demo.jan10
                                (Some Demo.winBody) (Demo.storeWithStreak "2024-01-10"))
                         Demo.winReply h1)) h2).
Defined.


(** On 2024-01-10 a client that sends the key of the next day gets it. *)
Lemma day_key_witness :
  86400000 <= Demo.jan10 < 4102358400000 /\ -1 <= 1 <= 1 /\
  Rich.resolveDateKey Demo.jan10 (Str (Rich.utcDateKeyOffset Demo.jan10 1))
    = Rich.utcDateKeyOffset Demo.jan10 1.
Proof.
  assert (h1 : 86400000 <= Demo.jan10 < 4102358400000) by (unfold Demo.jan10; lia).
  assert (h2 : -1 <= 1 <= 1) by lia.
  exact (conj h1 (conj h2
    (proj1 (proj2 day_key_stays_in_the_window) Demo.jan10 1 h1 h2))).
Defined.

(** The text [ r/AskReddit ] against the answer askreddit. *)
Lemma spelling_witness :
  allChars isSpace " " = true /\ "r/" ∈ communityPrefixes /\
  allChars isWordChar "AskReddit" = true /\
  toLowerCase "AskReddit" = toLowerCase "askreddit" /\
  normalizeGuess (" " ++ ("r/" ++ "AskReddit") ++ " ") = "AskReddit" /\
  guessMatches (" " ++ ("r/" ++ "AskReddit") ++ " ") "askreddit" = true.
Proof.
  assert (h1 : allChars isSpace " " = true) by reflexivity.
  assert (h2 : "r/" ∈ communityPrefixes) by (unfold communityPrefixes; repeat constructor).
  assert (h3 : allChars isWordChar "AskReddit" = true) by reflexivity.
  assert (h4 : toLowerCase "AskReddit" = toLowerCase "askreddit") by reflexivity.
  refine (conj h1 (conj h2 (conj h3 (conj h4 _)))).
  destruct (proj2 (proj2 typed_spellings_normalise_to_the_name)
              " " "r/" "AskReddit" " " h1 h1 h2 h3) as [H1 H2].
  exact (conj H1 (H2 "askreddit" h4)).
Defined.


(** With no comments at all the build of 2024-01-10 fails for the lack of
    a usable comment and caches nothing. *)
Lemma build_failure_witness :
  (Rich.buildDailyPuzzle quietWorld "2024-01-10" easy ∅).2 = Throw (NoUsableComments "t3_z") /\
  cachedText ∅ "2024-01-10" easy = None /\
  (Rich.buildDailyPuzzle quietWorld "2024-01-10" easy ∅).1 = ∅ /\
  NoUsableComments "t3_z" <> TypeError.
Proof.
  assert (h1 : (Rich.buildDailyPuzzle quietWorld "2024-01-10" easy ∅).2
               = Throw (NoUsableComments "t3_z")) by (vm_compute; reflexivity).
  assert (h2 : cachedText ∅ "2024-01-10" easy = None) by reflexivity.
  refine (conj h1 (conj h2 _)).
  destruct (proj1 (build_fails_only_for_named_reasons quietWorld "2024-01-10" easy ∅
                     (NoUsableComments "t3_z")) h1) as [H1 H2].
  exact (conj H1 (proj1 (H2 h2))).
Defined.
